(** * vo2pandoc: the outline-to-markdown converter, embedded and verified

    A shallow embedding of [vo2pandoc.py] (the functions [getLevel],
    [nextIdx], [makeHeader], [renderHeaders], [renderList], the five content
    block processors, [processSection] and the conversion part of [main]),
    followed by the properties of the converter.

    Conventions of the embedding.
    - The language is Python 3: comparing [None] with an integer, adding to
      [None], indexing out of range, unpacking a sequence of the wrong length
      and [sys.exit()] raise [TypeError], [TypeError], [IndexError],
      [ValueError] and [SystemExit].
    - A Python [str] is a [string]; a character is a code point below 256.
    - A Python list of lines is a [list string], indexed by a [Z] the way
      Python does it (negative indices count from the end).
    - The [while] loops and the recursion of [processSection] run on fuel;
      [fuel_enough] shows that the fuel the entry points pass is never
      exhausted. *)

From Stdlib Require Import ZArith List String Ascii Bool Lia.
Import ListNotations.

Open Scope string_scope.
Open Scope Z_scope.
Open Scope list_scope.

(** [+] on Python strings *)
Infix "+++" := String.append (right associativity, at level 60).

(** ** Exceptions and results *)

Inductive exn : Type :=
| IndexError
| TypeError
| ValueError
| SystemExit (printed : string).

Inductive result (A : Type) : Type :=
| Ok (a : A)
| Raise (e : exn)
| OutOfFuel.

(** [sys.exit()], as opposed to an error of the interpreter. *)
Definition is_exit (e : exn) : bool :=
  match e with
  | SystemExit _ => true
  | _ => false
  end.

Arguments Ok {A} a.
Arguments Raise {A} e.
Arguments OutOfFuel {A}.

Definition bind {A B : Type} (m : result A) (k : A -> result B) : result B :=
  match m with
  | Ok a => k a
  | Raise e => Raise e
  | OutOfFuel => OutOfFuel
  end.

Notation "'let*' x ':=' m 'in' k" := (bind m (fun x => k))
  (at level 10, x pattern, m at level 100, k at level 200).

(** ** Python strings *)

Definition tab : ascii := ascii_of_nat 9.
Definition newline : ascii := ascii_of_nat 10.

(** [str.isspace] of Python 3 on the code points below 256. *)
Definition isspace (c : ascii) : bool :=
  let n := nat_of_ascii c in
  ((9 <=? n) && (n <=? 13) || (28 <=? n) && (n <=? 32)
   || (n =? 133) || (n =? 160))%nat.

Fixpoint lstrip (s : string) : string :=
  match s with
  | EmptyString => EmptyString
  | String c r => if isspace c then lstrip r else s
  end.

Fixpoint rstrip (s : string) : string :=
  match s with
  | EmptyString => EmptyString
  | String c r =>
      match rstrip r with
      | EmptyString => if isspace c then EmptyString else String c EmptyString
      | r' => String c r'
      end
  end.

(** [s.strip()] *)
Definition strip (s : string) : string := rstrip (lstrip s).

(** [s[n:]] *)
Fixpoint str_from (n : nat) (s : string) : string :=
  match n, s with
  | O, _ => s
  | S n', String _ r => str_from n' r
  | S _, EmptyString => EmptyString
  end.

(** [s[n]] for [n >= 0] *)
Definition str_at (s : string) (n : nat) : result ascii :=
  match String.get n s with
  | Some c => Ok c
  | None => Raise IndexError
  end.

(** [s.startswith(prefix)] *)
Fixpoint startswith (s prefix : string) {struct prefix} : bool :=
  match prefix, s with
  | EmptyString, _ => true
  | String p prefix', String c s' => Ascii.eqb c p && startswith s' prefix'
  | String _ _, EmptyString => false
  end.

(** [n * c] for a one-character string [c]: empty when [n <= 0]. *)
Fixpoint replicate (n : nat) (c : ascii) : string :=
  match n with
  | O => EmptyString
  | S n' => String c (replicate n' c)
  end.

Definition str_mul (n : Z) (c : ascii) : string := replicate (Z.to_nat n) c.

(** [re.sub('[^\|]', "-", s)]: every character but the pipe becomes a dash. *)
Fixpoint sub_nonpipe (s : string) : string :=
  match s with
  | EmptyString => EmptyString
  | String c r =>
      String (if Ascii.eqb c "|" then "|" else "-")%char (sub_nonpipe r)
  end.

(** ** Python list indexing *)

(** [lines[i]]: a negative index counts from the end. *)
Definition py_index (lines : list string) (i : Z) : result string :=
  let n := Z.of_nat (List.length lines) in
  let j := if i <? 0 then n + i else i in
  if (0 <=? j) && (j <? n)
  then match nth_error lines (Z.to_nat j) with
       | Some l => Ok l
       | None => Raise IndexError
       end
  else Raise IndexError.

(** [a > b] where [a] may be [None]. *)
Definition py_gt (a : option Z) (b : Z) : result bool :=
  match a with
  | Some x => Ok (b <? x)
  | None => Raise TypeError
  end.

(** ** Line classifier and navigator *)

Fixpoint getLevel_from (count : Z) (line : string) : option Z :=
  match line with
  | EmptyString => None
  | String c r =>
      if Ascii.eqb c tab then getLevel_from (count + 1) r else Some count
  end.

Definition getLevel (line : string) : option Z := getLevel_from 0 line.

(** [len(line.strip()) > 0] *)
Definition nonblank (line : string) : bool :=
  match strip line with
  | EmptyString => false
  | String _ _ => true
  end.

(** The [for i in range(idx+1, len(lines))] of [nextIdx], over the lines
    from position [i] on. *)
Fixpoint scan (i : Z) (rest : list string) : Z :=
  match rest with
  | [] => -1
  | l :: rest' => if nonblank l then i else scan (i + 1) rest'
  end.

Definition nextIdx (idx : Z) (lines : list string) : Z :=
  if idx <? 0 then idx
  else scan (idx + 1) (skipn (Z.to_nat (idx + 1)) lines).

(** ** Sibling group renderers *)

Definition makeHeader (line : string) (level : option Z) : result string :=
  match level with
  | Some l => Ok (str_mul (l + 1) "#" +++ line)
  | None => Raise TypeError
  end.

Definition item : Type := string * list string.

(** [for [line, content] in items] destructures each element of [items];
    [out.extend(content)] then iterates [content].  The source passes
    [renderHeaders] both a list of items and a list of strings; a string
    unpacks into its characters, and only when it has exactly two. *)
Class Unpack (A : Type) : Type := unpack : A -> result (string * list string).

#[export] Instance unpack_item : Unpack item := fun it => Ok it.

#[export] Instance unpack_str : Unpack string := fun s =>
  match s with
  | String a (String b EmptyString) =>
      Ok (String a EmptyString, [String b EmptyString])
  | _ => Raise ValueError
  end.

Fixpoint renderHeaders {A : Type} `{Unpack A} (items : list A)
  : result (list string) :=
  match items with
  | [] => Ok []
  | x :: rest =>
      let* (line, content) := unpack x in
      let* h := makeHeader (strip line) (getLevel line) in
      let* out := renderHeaders rest in
      Ok (h :: content ++ out)
  end.

Fixpoint renderList (items : list item) : list string :=
  match items with
  | [] => []
  | (line, content) :: rest =>
      ("* " +++ strip line) :: map (append "    ") content ++ renderList rest
  end.

(** ** Content block processors *)

(** The loop the five processors share:
    [while idx >= 0 and lines[idx].strip().startswith(marker):
       <append emit(lines[idx]) to out>; idx = nextIdx(idx, lines)]. *)
Fixpoint block_loop (fuel : nat) (marker : string)
    (emit : string -> result (list string))
    (lines : list string) (out : list string) (idx : Z)
  : result (list string * Z) :=
  match fuel with
  | O => OutOfFuel
  | S fuel' =>
      if 0 <=? idx then
        let* l := py_index lines idx in
        if startswith (strip l) marker then
          let* new := emit l in
          block_loop fuel' marker emit lines (out ++ new) (nextIdx idx lines)
        else Ok (out, idx)
      else Ok (out, idx)
  end.

Definition block_fuel (lines : list string) : nat := S (List.length lines).

Definition processBodyText (idx : Z) (lines : list string)
  : result (list string * Z) :=
  let* (out, idx') :=
    block_loop (block_fuel lines) ":"
      (fun l => Ok [strip (str_from 1 (strip l))]) lines [""] idx in
  Ok (out ++ [""], idx').

Definition processBodyPreText (idx : Z) (lines : list string)
  : result (list string * Z) :=
  let* (out, idx') :=
    block_loop (block_fuel lines) ";"
      (fun l => Ok ["| " +++ strip (str_from 1 (strip l))]) lines [""] idx in
  Ok (out ++ [""], idx').

Definition processUserText (idx : Z) (lines : list string)
  : result (list string * Z) :=
  let* (out, idx') :=
    block_loop (block_fuel lines) ">"
      (fun l => Ok [strip l]) lines [] idx in
  Ok (out ++ [""], idx').

Definition processUserPreText (idx : Z) (lines : list string)
  : result (list string * Z) :=
  let* (out, idx') :=
    block_loop (block_fuel lines) "<"
      (fun l => Ok [str_from 1 (strip l)]) lines ["~~~"] idx in
  Ok (out ++ ["~~~"], idx').

(** The body of the loop of [processTable] for one line. *)
Definition tableRow (l : string) : result (list string) :=
  let line := strip l in
  let* c := str_at line 1 in
  if Ascii.eqb c "|" then
    let line := "| " +++ str_from 2 line in
    Ok [line; sub_nonpipe line]
  else Ok [line].

Definition processTable (idx : Z) (lines : list string)
  : result (list string * Z) :=
  let* (out, idx') :=
    block_loop (block_fuel lines) "|" tableRow lines [] idx in
  Ok (out ++ [""], idx').

(** ** Section processor *)

(** The local variables of one call of [processSection]. *)
Record state : Type := mkState {
  st_out : list string;
  st_isList : bool;
  st_firstItem : bool;
  st_makeList : bool;
  st_items : list item;
  st_curlevel : option Z;
  st_idx : Z
}.

Definition checkbox_message : string := "Error: Checkboxes not implemented".

(** The flush that opens each content-block branch:
    [if not firstItem: ...; firstItem = True]. *)
Definition flushPending (st : state) : result state :=
  if negb (st_firstItem st) then
    let* rendered :=
      if st_makeList st then Ok (renderList (st_items st))
      else renderHeaders (renderList (st_items st)) in
    Ok (mkState (st_out st ++ rendered) (st_isList st) true (st_makeList st)
          (st_items st) (st_curlevel st) (st_idx st))
  else Ok st.

(** One content-block branch: [isList = False], the flush, the processor,
    [out.extend(textout)].  Returns the new state and [nidx]. *)
Definition contentBranch
    (process : Z -> list string -> result (list string * Z))
    (lines : list string) (st : state) : result (state * Z) :=
  let st1 := mkState (st_out st) false (st_firstItem st) (st_makeList st)
               (st_items st) (st_curlevel st) (st_idx st) in
  let* st2 := flushPending st1 in
  let* (textout, nidx) := process (st_idx st) lines in
  Ok (mkState (st_out st2 ++ textout) (st_isList st2) (st_firstItem st2)
        (st_makeList st2) (st_items st2) (st_curlevel st2) (st_idx st2), nidx).

(** The structural branch after the recursive call has returned
    [[secout, nidx, isListItem]]. *)
Definition addItem (curline : string) (secout : list string)
    (isListItem : bool) (st : state) : state :=
  let st1 :=
    if st_firstItem st then
      mkState (st_out st) (st_isList st) false isListItem [] (st_curlevel st)
        (st_idx st)
    else if negb isListItem then
      mkState (st_out st) false (st_firstItem st) false (st_items st)
        (st_curlevel st) (st_idx st)
    else st in
  mkState (st_out st1) (st_isList st1) (st_firstItem st1) (st_makeList st1)
    (st_items st1 ++ [(curline, secout)]) (st_curlevel st1) (st_idx st1).

(** The flush after the loop. *)
Definition finalFlush (st : state) : result (list string) :=
  if negb (st_firstItem st) then
    let* rendered :=
      if st_makeList st then Ok (renderList (st_items st))
      else renderHeaders (st_items st) in
    Ok (st_out st ++ rendered)
  else Ok (st_out st).

(** The body of the loop up to [nidx]: the chain of tests on [start].  The
    recursive call of the last branch is [recur]. *)
Definition dispatch (recur : Z -> Z -> result (list string * Z * bool))
    (lines : list string) (st : state) (curline : string) (start : ascii)
  : result (state * Z) :=
  if Ascii.eqb start ":" then contentBranch processBodyText lines st
  else if Ascii.eqb start ";" then contentBranch processBodyPreText lines st
  else if Ascii.eqb start ">" then contentBranch processUserText lines st
  else if Ascii.eqb start "<" then contentBranch processUserPreText lines st
  else if Ascii.eqb start "|" then contentBranch processTable lines st
  else if Ascii.eqb start "[" then Raise (SystemExit checkbox_message)
  else
    match st_curlevel st with
    | Some curlevel =>
        let* (secout, nidx, isListItem) :=
          recur (nextIdx (st_idx st) lines) curlevel in
        Ok (addItem curline secout isListItem st, nidx)
    | None => Raise TypeError
    end.

Fixpoint processSection (fuel : nat) (idx : Z) (lines : list string)
    (level : Z) {struct fuel} : result (list string * Z * bool) :=
  match fuel with
  | O => OutOfFuel
  | S fuel' =>
      let* l := py_index lines idx in
      let curlevel := getLevel l in
      let* deeper := py_gt curlevel level in
      if deeper && (0 <=? idx) then
        let* st := sectionLoop fuel' lines level
                     (mkState [] true true false [] curlevel idx) in
        let* out := finalFlush st in
        Ok (out, st_idx st, st_isList st)
      else
        Ok ([""], idx, true)
  end

with sectionLoop (fuel : nat) (lines : list string) (level : Z) (st : state)
    {struct fuel} : result state :=
  match fuel with
  | O => OutOfFuel
  | S fuel' =>
      let* deeper := py_gt (st_curlevel st) level in
      if deeper && (0 <=? st_idx st) then
        let* curline := py_index lines (st_idx st) in
        let* start := str_at (strip curline) 0 in
        let* (st', nidx) :=
          dispatch (fun idx' level' => processSection fuel' idx' lines level')
            lines st curline start in
        let* l := py_index lines nidx in
        sectionLoop fuel' lines level
          (mkState (st_out st') (st_isList st') (st_firstItem st')
             (st_makeList st') (st_items st') (getLevel l) nidx)
      else Ok st
  end.

(** The markers of the five content blocks. *)
Definition is_content (c : ascii) : bool :=
  (Ascii.eqb c ":" || Ascii.eqb c ";" || Ascii.eqb c ">" || Ascii.eqb c "<"
   || Ascii.eqb c "|")%char.

(** The first character of a structural line: any other than the markers
    of the content blocks and of the checkbox. *)
Definition is_structural (c : ascii) : bool :=
  negb (is_content c) && negb (Ascii.eqb c "[").

(** The lines the section processor examines: [examinedLoop] holds of the
    positions at which the loop started in state [st] runs its body, in
    this call or in the calls below it, [examinedSection] of those of the
    loop of a whole call. *)
Fixpoint examinedSection (fuel : nat) (idx : Z) (lines : list string)
    (level : Z) (i : Z) {struct fuel} : Prop :=
  match fuel with
  | O => False
  | S fuel' =>
      exists l,
        py_index lines idx = Ok l
        /\ py_gt (getLevel l) level = Ok true /\ 0 <= idx
        /\ examinedLoop fuel' lines level
             (mkState [] true true false [] (getLevel l) idx) i
  end

with examinedLoop (fuel : nat) (lines : list string) (level : Z) (st : state)
    (i : Z) {struct fuel} : Prop :=
  match fuel with
  | O => False
  | S fuel' =>
      py_gt (st_curlevel st) level = Ok true /\ 0 <= st_idx st
      /\ (st_idx st = i
          \/ exists curline start,
               py_index lines (st_idx st) = Ok curline
               /\ str_at (strip curline) 0 = Ok start
               /\ ((exists curlevel,
                      is_structural start = true
                      /\ st_curlevel st = Some curlevel
                      /\ examinedSection fuel' (nextIdx (st_idx st) lines)
                           lines curlevel i)
                   \/ exists st' nidx l,
                        dispatch
                          (fun idx' level' =>
                             processSection fuel' idx' lines level')
                          lines st curline start = Ok (st', nidx)
                        /\ py_index lines nidx = Ok l
                        /\ examinedLoop fuel' lines level
                             (mkState (st_out st') (st_isList st')
                                (st_firstItem st') (st_makeList st')
                                (st_items st') (getLevel l) nidx) i))
  end.

Definition section_fuel (lines : list string) : nat :=
  2 * List.length lines + 2.

(** The conversion of [main]: [processSection(0, lines, -1)], whose output
    lines are then printed. *)
Definition main (lines : list string) : result (list string) :=
  let* (out, _, _) := processSection (section_fuel lines) 0 lines (-1) in
  Ok out.

(** Lines as [readlines] yields them. *)
Definition tabs (n : nat) : string := replicate n tab.
Definition ln (depth : nat) (text : string) : string :=
  tabs depth +++ text +++ String newline EmptyString.


(** ** Where a section ends

    Two readings of the stopping position of [processSection(pos, level)],
    as scans over the lines from [pos] on.  They are specifications, written
    from the contract of the section processor and not from its code. *)

(** The depth of a line that is not blank. *)
Definition depth (l : string) : Z :=
  match getLevel l with
  | Some d => d
  | None => 0
  end.

(** The contract as the specification words it: the first line, blank lines
    apart, whose depth is at most [level]; [-1] at end of input. *)
Fixpoint first_shallow (level : Z) (i : Z) (rest : list string) : Z :=
  match rest with
  | [] => -1
  | l :: rest' =>
      if nonblank l && (depth l <=? level) then i
      else first_shallow level (i + 1) rest'
  end.

Definition contractEnd (pos : Z) (lines : list string) (level : Z) : Z :=
  first_shallow level pos (skipn (Z.to_nat pos) lines).

(** Whether a line whose stripped form starts with [c] continues the content
    block run [run] that the line before it belongs to. *)
Definition continues (run : option ascii) (c : ascii) : bool :=
  match run with
  | Some m => Ascii.eqb c m
  | None => false
  end.

(** The contract with content block runs taken into account: a line that
    continues the run of the line before it is consumed whatever its depth;
    the scan stops at the first other line whose depth is at most [level]. *)
Fixpoint stop_scan (level : Z) (i : Z) (run : option ascii)
    (rest : list string) : Z :=
  match rest with
  | [] => -1
  | l :: rest' =>
      match strip l with
      | EmptyString => stop_scan level (i + 1) run rest'
      | String c _ =>
          if continues run c then stop_scan level (i + 1) run rest'
          else if depth l <=? level then i
          else stop_scan level (i + 1)
                 (if is_content c then Some c else None) rest'
      end
  end.

Definition sectionEnd (pos : Z) (lines : list string) (level : Z) : Z :=
  if pos <? 0 then pos
  else stop_scan level pos None (skipn (Z.to_nat pos) lines).

(** The lines from position [i] on. *)
Definition from (lines : list string) (i : Z) : list string :=
  skipn (Z.to_nat i) lines.

(** A line made of tab characters only. *)
Fixpoint all_tabs (l : string) : bool :=
  match l with
  | EmptyString => true
  | String c r => Ascii.eqb c tab && all_tabs r
  end.

(** [process] is a content block processor for the marker [c]: the shared
    loop between an opening and a closing list of lines. *)
Definition runs_block (c : ascii)
    (process : Z -> list string -> result (list string * Z)) : Prop :=
  exists emit opening closing,
    (forall l, emit l <> OutOfFuel)
    /\ (forall l e, emit l = Raise e -> is_exit e = false)
    /\ forall idx lines,
         process idx lines
         = bind (block_loop (block_fuel lines) (String c EmptyString) emit
                   lines opening idx)
             (fun r => Ok (fst r ++ closing, snd r)).

(** The state at the head of the loop of [processSection]: [idx] is [-1]
    or the position of a line that is not blank, and [curlevel] is the
    level of [lines[idx]]. *)
Definition at_head (lines : list string) (st : state) : Prop :=
  exists l, py_index lines (st_idx st) = Ok l
    /\ st_curlevel st = getLevel l
    /\ (st_idx st < 0 \/ nonblank l = true).

(** No line from position [a] up to the stopping position [b] (the end of
    the input when [b] is negative) is a checkbox line. *)
Definition no_checkbox (lines : list string) (a b : Z) : Prop :=
  forall j l, a <= j -> b < 0 \/ j < b ->
    nth_error lines (Z.to_nat j) = Some l -> startswith (strip l) "[" = false.

(** One iteration of the loop of [processSection] at level [level] moves
    from [idx] to [nidx]: forwards, to [-1] or to a line that is not blank,
    without changing where the section ends, and over no checkbox line. *)
Definition advances (lines : list string) (level idx nidx : Z) : Prop :=
  (nidx = -1
   \/ idx < nidx
      /\ exists l, nth_error lines (Z.to_nat nidx) = Some l
           /\ nonblank l = true)
  /\ sectionEnd idx lines level = sectionEnd nidx lines level
  /\ no_checkbox lines idx nidx.

(** What the recursive call is known to return. *)
Definition stops_well (lines : list string)
    (recur : Z -> Z -> result (list string * Z * bool)) : Prop :=
  forall idx level out stop fl,
    recur idx level = Ok (out, stop, fl) ->
    idx < 0
    \/ (0 <= idx
        /\ exists l, nth_error lines (Z.to_nat idx) = Some l
             /\ nonblank l = true) ->
    stop = sectionEnd idx lines level
    /\ (0 <= idx -> no_checkbox lines idx stop).

(** The lines still ahead of position [idx]. *)
Definition remaining (lines : list string) (idx : Z) : nat :=
  if idx <? 0 then O else Z.to_nat (Z.of_nat (List.length lines) - idx).

(** [r'] is the result [r], or [r] ran out of fuel. *)
Definition refines {A : Type} (r r' : result A) : Prop :=
  r = OutOfFuel \/ r' = r.

(** ** The indentation tree

    The tree the specification speaks of, built from the lines and not by
    the converter: the parent of a line is the nearest line before it that
    is less deep. *)

#[warnings="-register-all"] Inductive tree : Type :=
| Node (label : string) (children : list tree).

Definition label (t : tree) : string :=
  match t with Node l _ => l end.

Definition children (t : tree) : list tree :=
  match t with Node _ cs => cs end.






(** A structural line: not blank, and no marker in front. *)
Definition structural_line (l : string) : bool :=
  match strip l with
  | String c _ => is_structural c
  | EmptyString => false
  end.




(** The position of the first line of [rest] in [pre ++ rest], the end
    sentinel when there is none. *)
Definition pos_after (pre rest : list string) : Z :=
  match rest with
  | [] => -1
  | _ :: _ => Z.of_nat (List.length pre)
  end.

(** [getLevel(lines[i])], as the loop stores it in [curlevel]. *)
Definition level_at (lines : list string) (i : Z) : option Z :=
  match py_index lines i with
  | Ok l => getLevel l
  | _ => None
  end.



(** ** Content block runs

    The run a content block processor consumes, read off the input and
    not off the loop of the processor. *)

(** The lines of the run of [marker] lines at the head of [rest], blank
    lines skipped. *)
Fixpoint run_lines (marker : string) (rest : list string) : list string :=
  match rest with
  | [] => []
  | l :: rest' =>
      match strip l with
      | EmptyString => run_lines marker rest'
      | String _ _ =>
          if startswith (strip l) marker then l :: run_lines marker rest'
          else []
      end
  end.

(** The position of the first line behind the run, [-1] when the run
    reaches the end of the input; [i] is the position of the head of
    [rest]. *)
Fixpoint run_end (marker : string) (i : Z) (rest : list string) : Z :=
  match rest with
  | [] => -1
  | l :: rest' =>
      match strip l with
      | EmptyString => run_end marker (i + 1) rest'
      | String _ _ =>
          if startswith (strip l) marker then run_end marker (i + 1) rest'
          else i
      end
  end.

(** The output lines of a table row. *)
Definition table_lines (l : string) : list string :=
  let line := strip l in
  if startswith line "||"
  then ["| " +++ str_from 2 line; sub_nonpipe ("| " +++ str_from 2 line)]
  else [line].

(** ** Documents: headings with their body text

    An outline in which every heading line is followed by body text, and
    then by its subtopics. *)

#[warnings="-register-all"] Inductive topic : Type :=
| Topic (heading : string) (body : list string) (subtopics : list topic).

Definition heading (t : topic) : string :=
  match t with Topic l _ _ => l end.

Definition body (t : topic) : list string :=
  match t with Topic _ b _ => b end.

Definition subtopics (t : topic) : list topic :=
  match t with Topic _ _ subs => subs end.

(** The lines of a topic, in document order. *)
Fixpoint topic_lines (t : topic) : list string :=
  match t with
  | Topic l b subs => l :: b ++ flat_map topic_lines subs
  end.

(** The paragraph of a run of body text lines: the text of each line
    between two blank lines. *)
Definition paragraph (b : list string) : list string :=
  "" :: map (fun l => strip (str_from 1 (strip l))) b ++ [""].

(** The heading of a line: [depth + 1] characters [#], then the label. *)
Definition heading_line (l : string) : string :=
  str_mul (depth l + 1) "#" +++ strip l.

(** The markdown of a topic: its heading, its paragraph, its subtopics. *)
Fixpoint headings (t : topic) : list string :=
  match t with
  | Topic l b subs => heading_line l :: paragraph b ++ flat_map headings subs
  end.

(** The item the section processor holds for a topic. *)
Definition topic_item (t : topic) : item :=
  (heading t, paragraph (body t) ++ flat_map headings (subtopics t)).

(** Topics that hang below the level [level]: a heading is a structural
    line deeper than [level] and not deeper than the heading before it;
    its body is a run of body text lines that is not empty and starts
    deeper than the heading; its subtopics hang below it. *)
Inductive document : Z -> list topic -> Prop :=
| document_nil (level : Z) : document level []
| document_cons (level : Z) (l b : string) (bs : list string)
    (subs sibs : list topic) :
    structural_line l = true ->
    level < depth l ->
    Forall (fun t => startswith (strip t) ":" = true) (b :: bs) ->
    depth l < depth b ->
    document (depth l) subs ->
    document level sibs ->
    (forall t sibs', sibs = t :: sibs' -> depth (heading t) <= depth l) ->
    document level (Topic l (b :: bs) subs :: sibs).

(** The loop statement for topics: started at the first heading, the loop
    adds one item per topic, to be rendered as headings, and stops behind
    the topics. *)
Definition loop_collects (lines : list string) (level : Z)
    (topics : list topic) : Prop :=
  forall pre post st,
    lines = pre ++ flat_map topic_lines topics ++ post ->
    (forall l post', post = l :: post' ->
       depth l <= level /\ structural_line l = true) ->
    st_idx st = Z.of_nat (List.length pre) ->
    st_curlevel st = level_at lines (st_idx st) ->
    exists fuel st',
      sectionLoop fuel lines level st = Ok st'
      /\ st_out st' = st_out st
      /\ st_firstItem st' = false /\ st_makeList st' = false
      /\ st_items st'
         = (if st_firstItem st then [] else st_items st)
           ++ map topic_item topics
      /\ st_idx st' = pos_after (pre ++ flat_map topic_lines topics) post
      /\ (st_isList st = false -> st_isList st' = false).

(** * Properties *)

(** ** The embedding on small inputs *)

Example headings_when_every_group_has_text :
  main [ln 0 "A"; ln 1 ":text"; ln 0 "B"; ln 1 ":text2"]
  = Ok ["#A"; ""; "text"; ""; "#B"; ""; "text2"; ""].
Proof. reflexivity. Qed.

Example content_blocks :
  main [ln 0 "Top"; ln 1 "; pre"; ln 1 "> quote"; ln 1 "< code";
        ln 1 "|| a | b |"; ln 1 "| 1 | 2 |"]
  = Ok ["#Top"; ""; "| pre"; ""; "> quote"; ""; "~~~"; " code"; "~~~";
        "|  a | b |"; "|----|---|"; "| 1 | 2 |"; ""].
Proof. reflexivity. Qed.

Example blank_lines_are_skipped :
  main [ln 0 "A"; ln 0 ""; ln 1 "B"; ln 2 ""; ln 0 "C"]
  = Ok ["* A"; "    * B"; "        "; "* C"; "    "].
Proof. reflexivity. Qed.

Example list_flushed_before_text :
  main [ln 1 "Title"; ln 1 ":Some text"]
  = Ok ["* Title"; "    "; ""; "Some text"; ""].
Proof. reflexivity. Qed.

Example short_table_row :
  main [ln 0 "A"; ln 1 "|"] = Raise IndexError.
Proof. reflexivity. Qed.

(** ** Results *)

Lemma bind_Ok {A B : Type} (m : result A) (k : A -> result B) (b : B) :
  bind m k = Ok b -> exists a, m = Ok a /\ k a = Ok b.
Proof.
  destruct m as [a | e |]; simpl; intros E; try discriminate.
  exists a; split; [reflexivity | exact E].
Qed.

Lemma bind_fuel {A B : Type} (m : result A) (k : A -> result B) :
  bind m k = OutOfFuel ->
  m = OutOfFuel \/ exists a, m = Ok a /\ k a = OutOfFuel.
Proof.
  destruct m as [a | e |]; simpl; intros E; try discriminate.
  - right; exists a; split; [reflexivity | exact E].
  - left; reflexivity.
Qed.

(** ** Strings *)

Lemma isspace_tab : isspace tab = true.
Proof. reflexivity. Qed.

Lemma eqb_tab_space (c : ascii) : Ascii.eqb c tab = true -> isspace c = true.
Proof. intros E; apply Ascii.eqb_eq in E; subst c; reflexivity. Qed.

Lemma rstrip_empty_inv (s : string) (c : ascii) :
  rstrip (String c s) = EmptyString ->
  isspace c = true /\ rstrip s = EmptyString.
Proof.
  simpl; destruct (rstrip s) eqn:R; [| discriminate].
  destruct (isspace c); [auto | discriminate].
Qed.

Lemma lstrip_head (s : string) (c : ascii) (r : string) :
  lstrip s = String c r -> isspace c = false.
Proof.
  induction s as [| a s IH]; simpl; [discriminate |].
  destruct (isspace a) eqn:Sa; [exact IH |].
  intros E; injection E as -> _; exact Sa.
Qed.

Lemma rstrip_head (c : ascii) (r : string) :
  isspace c = false -> exists r', rstrip (String c r) = String c r'.
Proof.
  intros Sc; simpl; destruct (rstrip r) as [| a r']; [| eauto].
  rewrite Sc; eauto.
Qed.

(** The stripped line starts with the first character of the line that is
    not white space. *)
Lemma strip_head (s : string) (c : ascii) (r : string) :
  lstrip s = String c r -> exists r', strip s = String c r'.
Proof.
  intros E; unfold strip; rewrite E.
  apply rstrip_head; exact (lstrip_head s c r E).
Qed.

Lemma strip_first_not_space (s : string) (c : ascii) (r : string) :
  strip s = String c r -> isspace c = false.
Proof.
  unfold strip; destruct (lstrip s) as [| a t] eqn:E; [discriminate |].
  destruct (strip_head s a t E) as [r' E']; unfold strip in E'; rewrite E in E'.
  rewrite E'; intros E2; injection E2 as -> _.
  exact (lstrip_head s c t E).
Qed.

Lemma getLevel_from_None (n : Z) (s : string) :
  getLevel_from n s = None -> lstrip s = EmptyString.
Proof.
  revert n; induction s as [| a s IH]; intros n; simpl; [reflexivity |].
  destruct (Ascii.eqb a tab) eqn:E; [| discriminate].
  rewrite (eqb_tab_space a E); apply IH.
Qed.

Lemma getLevel_from_ge (n d : Z) (s : string) :
  getLevel_from n s = Some d -> n <= d.
Proof.
  revert n; induction s as [| a s IH]; intros n; simpl; [discriminate |].
  destruct (Ascii.eqb a tab).
  - intros E; apply IH in E; lia.
  - intros E; injection E as <-; lia.
Qed.

(** A line that is not blank has a depth, and the depth is not negative. *)
Lemma nonblank_getLevel (l : string) :
  nonblank l = true -> exists d, getLevel l = Some d /\ 0 <= d.
Proof.
  unfold nonblank, getLevel; intros N.
  destruct (getLevel_from 0 l) as [d |] eqn:G.
  - exists d; split; [reflexivity | exact (getLevel_from_ge 0 d l G)].
  - apply getLevel_from_None in G; unfold strip in N; rewrite G in N.
    discriminate.
Qed.

Lemma str_at_0 (s : string) (c : ascii) :
  str_at s 0 = Ok c -> exists r, s = String c r.
Proof.
  unfold str_at; destruct s as [| a r]; simpl; [discriminate |].
  intros E; injection E as ->; eauto.
Qed.

Lemma startswith_head (c : ascii) (r : string) (m : ascii) :
  startswith (String c r) (String m EmptyString) = Ascii.eqb c m.
Proof. simpl; apply andb_true_r. Qed.

(** ** Indexing and the navigator *)

Lemma skipn_nth_cons {A : Type} (xs : list A) (n : nat) (x : A) :
  nth_error xs n = Some x -> skipn n xs = x :: skipn (S n) xs.
Proof.
  revert n; induction xs as [| y xs IH]; intros [| n]; simpl; try discriminate.
  - intros E; injection E as ->; reflexivity.
  - intros E; rewrite (IH n E); reflexivity.
Qed.

Lemma from_cons (lines : list string) (i : Z) (l : string) :
  0 <= i -> nth_error lines (Z.to_nat i) = Some l ->
  from lines i = l :: from lines (i + 1).
Proof.
  intros I E; unfold from.
  replace (Z.to_nat (i + 1)) with (S (Z.to_nat i)) by lia.
  apply skipn_nth_cons, E.
Qed.

Lemma from_shift (lines : list string) (i j : Z) :
  0 <= i <= j -> from lines j = skipn (Z.to_nat (j - i)) (from lines i).
Proof.
  intros I; unfold from; rewrite skipn_skipn; f_equal; lia.
Qed.

Lemma from_nth (lines : list string) (i j : Z) :
  0 <= i <= j ->
  nth_error (from lines i) (Z.to_nat (j - i)) = nth_error lines (Z.to_nat j).
Proof.
  intros I; unfold from; rewrite nth_error_skipn; f_equal; lia.
Qed.

Lemma py_index_nonneg (lines : list string) (i : Z) (l : string) :
  0 <= i -> py_index lines i = Ok l -> nth_error lines (Z.to_nat i) = Some l.
Proof.
  intros I; unfold py_index.
  destruct (i <? 0) eqn:N; [apply Z.ltb_lt in N; lia |].
  destruct ((0 <=? i) && (i <? Z.of_nat (List.length lines))); [| discriminate].
  destruct (nth_error lines (Z.to_nat i)); [| discriminate].
  intros E; injection E as ->; reflexivity.
Qed.

Lemma nth_py_index (lines : list string) (i : Z) (l : string) :
  0 <= i -> nth_error lines (Z.to_nat i) = Some l -> py_index lines i = Ok l.
Proof.
  intros I E; unfold py_index.
  assert (B : (Z.to_nat i < List.length lines)%nat)
    by (apply nth_error_Some; rewrite E; discriminate).
  destruct (i <? 0) eqn:N; [apply Z.ltb_lt in N; lia |].
  replace ((0 <=? i) && (i <? Z.of_nat (List.length lines))) with true.
  - rewrite E; reflexivity.
  - symmetry; apply andb_true_intro; split;
      [apply Z.leb_le | apply Z.ltb_lt]; lia.
Qed.

(** [lines[-1]] is defined as soon as there is a line. *)
Lemma py_index_last (lines : list string) (i : Z) (l0 : string) :
  0 <= i -> nth_error lines (Z.to_nat i) = Some l0 ->
  exists l, py_index lines (-1) = Ok l.
Proof.
  intros I E; unfold py_index.
  assert (B : (Z.to_nat i < List.length lines)%nat)
    by (apply nth_error_Some; rewrite E; discriminate).
  replace (-1 <? 0) with true by reflexivity.
  set (n := Z.of_nat (List.length lines)).
  replace ((0 <=? n + -1) && (n + -1 <? n)) with true.
  - destruct (nth_error lines (Z.to_nat (n + -1))) as [l |] eqn:N; [eauto |].
    apply nth_error_None in N; unfold n in N; lia.
  - symmetry; apply andb_true_intro; split;
      [apply Z.leb_le | apply Z.ltb_lt]; unfold n; lia.
Qed.

(** What [scan] finds: the first line that is not blank, all lines before
    it being blank. *)
Lemma scan_spec (rest : list string) (i : Z) :
  0 <= i ->
  (scan i rest = -1 /\ forall l, In l rest -> nonblank l = false)
  \/ (exists k l, scan i rest = i + Z.of_nat k
        /\ nth_error rest k = Some l /\ nonblank l = true
        /\ forall k' l', (k' < k)%nat -> nth_error rest k' = Some l' ->
             nonblank l' = false).
Proof.
  revert i; induction rest as [| l rest IH]; intros i I; simpl.
  - left; split; [reflexivity | intros l []].
  - destruct (nonblank l) eqn:N.
    + right; exists O, l; repeat split; [f_equal; simpl; lia | exact N |].
      intros k' l' K; lia.
    + destruct (IH (i + 1) ltac:(lia)) as [[E B] | (k & l1 & E & H1 & N1 & B)].
      * left; split; [exact E |].
        intros l' [<- | Hin]; [exact N | exact (B l' Hin)].
      * right; exists (S k), l1; repeat split;
          [rewrite E; lia | exact H1 | exact N1 |].
        intros [| k'] l' K; simpl; [intros E'; injection E' as <-; exact N |].
        apply B; lia.
Qed.

(** The positions [nextIdx] returns. *)
Lemma nextIdx_spec (lines : list string) (idx : Z) :
  0 <= idx ->
  (nextIdx idx lines = -1
   /\ forall j l, idx < j -> nth_error lines (Z.to_nat j) = Some l ->
        nonblank l = false)
  \/ (exists l, idx < nextIdx idx lines
        /\ nth_error lines (Z.to_nat (nextIdx idx lines)) = Some l
        /\ nonblank l = true
        /\ forall j l', idx < j < nextIdx idx lines ->
             nth_error lines (Z.to_nat j) = Some l' -> nonblank l' = false).
Proof.
  intros I; unfold nextIdx.
  destruct (idx <? 0) eqn:N; [apply Z.ltb_lt in N; lia |].
  fold (from lines (idx + 1)).
  destruct (scan_spec (from lines (idx + 1)) (idx + 1) ltac:(lia))
    as [[E B] | (k & l & E & H & Nb & B)].
  - left; split; [exact E |].
    intros j l J H; apply B.
    apply (nth_error_In _ (Z.to_nat (j - (idx + 1)))).
    rewrite from_nth by lia; exact H.
  - right; exists l; rewrite E.
    assert (F : forall m : nat,
               nth_error (from lines (idx + 1)) m
               = nth_error lines (Z.to_nat (idx + 1 + Z.of_nat m))).
    { intros m; rewrite <- (from_nth lines (idx + 1)) by lia.
      f_equal; lia. }
    repeat split; [lia | rewrite <- F; exact H | exact Nb |].
    intros j l' J H'.
    apply (B (Z.to_nat (j - (idx + 1))) l'); [lia |].
    rewrite from_nth by lia; exact H'.
Qed.

Lemma nextIdx_neg (lines : list string) (idx : Z) :
  idx < 0 -> nextIdx idx lines = idx.
Proof.
  intros I; unfold nextIdx; apply Z.ltb_lt in I; rewrite I; reflexivity.
Qed.

Lemma nonblank_strip (l : string) :
  nonblank l = true -> exists c r, strip l = String c r.
Proof.
  unfold nonblank; destruct (strip l) as [| c r]; [discriminate | eauto].
Qed.

Lemma blank_strip (l : string) : nonblank l = false -> strip l = EmptyString.
Proof. unfold nonblank; destruct (strip l); [reflexivity | discriminate]. Qed.

Lemma nonblank_depth (l : string) :
  nonblank l = true -> getLevel l = Some (depth l) /\ 0 <= depth l.
Proof.
  intros N; destruct (nonblank_getLevel l N) as (d & G & D).
  unfold depth; rewrite G; auto.
Qed.

(** ** The scan that specifies the end of a section *)

Lemma sectionEnd_nonneg (pos : Z) (lines : list string) (level : Z) :
  0 <= pos ->
  sectionEnd pos lines level = stop_scan level pos None (from lines pos).
Proof.
  intros P; unfold sectionEnd, from.
  destruct (pos <? 0) eqn:N; [apply Z.ltb_lt in N; lia | reflexivity].
Qed.

Lemma sectionEnd_neg (pos : Z) (lines : list string) (level : Z) :
  pos < 0 -> sectionEnd pos lines level = pos.
Proof.
  intros P; unfold sectionEnd; apply Z.ltb_lt in P; rewrite P; reflexivity.
Qed.

(** The scan stops at [-1] or at a line in range that is not blank and
    whose depth is at most [level]. *)
Lemma stop_scan_range (level : Z) (rest : list string) (i : Z)
    (run : option ascii) :
  stop_scan level i run rest = -1
  \/ exists k l, stop_scan level i run rest = i + Z.of_nat k
       /\ nth_error rest k = Some l /\ nonblank l = true
       /\ depth l <= level.
Proof.
  revert i run; induction rest as [| l rest IH]; intros i run; simpl;
    [left; reflexivity |].
  assert (Next : forall run',
    stop_scan level (i + 1) run' rest = -1
    \/ exists k l0, stop_scan level (i + 1) run' rest = i + Z.of_nat k
         /\ nth_error (l :: rest) k = Some l0 /\ nonblank l0 = true
         /\ depth l0 <= level).
  { intros run'; destruct (IH (i + 1) run') as [E | (k & l0 & E & H & N & D)];
      [left; exact E |].
    right; exists (S k), l0; repeat split;
      [rewrite E; lia | exact H | exact N | exact D]. }
  destruct (strip l) as [| c r] eqn:S; [apply Next |].
  destruct (continues run c); [apply Next |].
  destruct (depth l <=? level) eqn:D; [| apply Next].
  right; exists O, l; repeat split; [lia | |].
  - unfold nonblank; rewrite S; reflexivity.
  - apply Z.leb_le, D.
Qed.

Lemma stop_scan_ge (level : Z) (rest : list string) (i : Z)
    (run : option ascii) :
  0 <= i ->
  stop_scan level i run rest = -1
  \/ i <= stop_scan level i run rest < i + Z.of_nat (List.length rest).
Proof.
  intros I; destruct (stop_scan_range level rest i run)
    as [E | (k & l & E & H & _)]; [left; exact E | right].
  assert (B : (k < List.length rest)%nat)
    by (apply nth_error_Some; rewrite H; discriminate).
  lia.
Qed.

(** Blank lines do not matter: the scan may start at the next line that is
    not blank. *)
Lemma stop_scan_skip (level : Z) (rest : list string) (i : Z)
    (run : option ascii) :
  0 <= i ->
  stop_scan level i run rest
  = (if scan i rest <? 0 then -1
     else stop_scan level (scan i rest) run
            (skipn (Z.to_nat (scan i rest - i)) rest)).
Proof.
  revert i; induction rest as [| l rest IH]; intros i I; [reflexivity |].
  cbn [scan]; destruct (nonblank l) eqn:N.
  - destruct (i <? 0) eqn:C; [apply Z.ltb_lt in C; lia |].
    replace (i - i) with 0 by lia; reflexivity.
  - cbn [stop_scan]; rewrite (blank_strip l N), (IH (i + 1)) by lia.
    destruct (scan_spec rest (i + 1) ltac:(lia)) as [[E _] | (k & l1 & E & _)];
      rewrite E.
    + reflexivity.
    + destruct (i + 1 + Z.of_nat k <? 0) eqn:C; [reflexivity |].
      replace (Z.to_nat (i + 1 + Z.of_nat k - i))
        with (S (Z.to_nat (i + 1 + Z.of_nat k - (i + 1)))) by lia.
      reflexivity.
Qed.

(** A scan for a shallow level passes through the end of the scan for a
    deeper level. *)
Lemma stop_scan_nest (shallow deep : Z) (rest : list string) (i : Z)
    (run : option ascii) :
  shallow <= deep -> 0 <= i ->
  stop_scan shallow i run rest
  = (if stop_scan deep i run rest <? 0 then -1
     else stop_scan shallow (stop_scan deep i run rest) None
            (skipn (Z.to_nat (stop_scan deep i run rest - i)) rest)).
Proof.
  intros SD; revert i run; induction rest as [| l rest IH]; intros i run I;
    [reflexivity |].
  assert (Next : forall run',
    stop_scan shallow (i + 1) run' rest
    = (if stop_scan deep (i + 1) run' rest <? 0 then -1
       else stop_scan shallow (stop_scan deep (i + 1) run' rest) None
              (skipn (Z.to_nat (stop_scan deep (i + 1) run' rest - i))
                 (l :: rest)))).
  { intros run'; rewrite (IH (i + 1) run') by lia.
    destruct (stop_scan_ge deep rest (i + 1) run' ltac:(lia)) as [E | B].
    - rewrite E; reflexivity.
    - destruct (stop_scan deep (i + 1) run' rest <? 0); [reflexivity |].
      replace (Z.to_nat (stop_scan deep (i + 1) run' rest - i))
        with (S (Z.to_nat (stop_scan deep (i + 1) run' rest - (i + 1))))
        by lia.
      reflexivity. }
  cbn [stop_scan]; destruct (strip l) as [| c r] eqn:S; [apply Next |].
  destruct (continues run c) eqn:C; [apply Next |].
  destruct (depth l <=? deep) eqn:D.
  - destruct (i <? 0) eqn:N; [apply Z.ltb_lt in N; lia |].
    replace (i - i) with 0 by lia.
    cbn [Z.to_nat skipn stop_scan continues]; rewrite S; reflexivity.
  - replace (depth l <=? shallow) with false; [apply Next |].
    symmetry; apply Z.leb_gt; apply Z.leb_gt in D; lia.
Qed.

(** A line that does not continue the run starts the scan afresh. *)
Lemma stop_scan_fresh (level : Z) (l : string) (rest : list string) (i : Z)
    (m c : ascii) (r : string) :
  strip l = String c r -> Ascii.eqb c m = false ->
  stop_scan level i (Some m) (l :: rest) = stop_scan level i None (l :: rest).
Proof. intros S C; cbn [stop_scan continues]; rewrite S, C; reflexivity. Qed.

Lemma stop_scan_next (level : Z) (lines : list string) (idx : Z)
    (run : option ascii) :
  0 <= idx ->
  stop_scan level (idx + 1) run (from lines (idx + 1))
  = (if nextIdx idx lines <? 0 then -1
     else stop_scan level (nextIdx idx lines) run
            (from lines (nextIdx idx lines))).
Proof.
  intros I; rewrite stop_scan_skip by lia.
  unfold nextIdx; destruct (idx <? 0) eqn:N; [apply Z.ltb_lt in N; lia |].
  fold (from lines (idx + 1)).
  destruct (scan_spec (from lines (idx + 1)) (idx + 1) ltac:(lia))
    as [[E _] | (k & l & E & _)]; rewrite E; [reflexivity |].
  destruct (idx + 1 + Z.of_nat k <? 0); [reflexivity |].
  rewrite <- from_shift by lia; reflexivity.
Qed.

(** ** Content block runs *)

(** Where a content block processor stops: at the first line, blank lines
    apart, that does not start with the marker.  In terms of the scan, the
    lines of the run are the lines that continue it. *)
Lemma block_loop_end (c : ascii) (emit : string -> result (list string))
    (lines : list string) (fuel : nat) :
  forall (out : list string) (idx : Z) (o : list string) (nidx : Z),
  block_loop fuel (String c EmptyString) emit lines out idx = Ok (o, nidx) ->
  (idx < 0 -> nidx = idx)
  /\ (0 <= idx ->
      (exists l, nth_error lines (Z.to_nat idx) = Some l
         /\ nonblank l = true) ->
      (nidx = -1
       \/ idx <= nidx
          /\ exists l, nth_error lines (Z.to_nat nidx) = Some l
               /\ nonblank l = true)
      /\ (forall level,
            stop_scan level idx (Some c) (from lines idx)
            = sectionEnd nidx lines level)
      /\ (forall j l, idx <= j -> nidx < 0 \/ j < nidx ->
            nth_error lines (Z.to_nat j) = Some l ->
            nonblank l = false
            \/ startswith (strip l) (String c EmptyString) = true)
      /\ (forall l, nth_error lines (Z.to_nat idx) = Some l ->
            startswith (strip l) (String c EmptyString) = true ->
            nidx <> idx)).
Proof.
  induction fuel as [| fuel IH]; intros out idx o nidx; [discriminate |].
  cbn [block_loop]; destruct (0 <=? idx) eqn:I.
  - apply Z.leb_le in I; intros E.
    split; [lia | intros _ (l & H & N)].
    rewrite (nth_py_index lines idx l I H) in E; cbn [bind] in E.
    destruct (nonblank_strip l N) as (a & r & S).
    rewrite (from_cons lines idx l I H).
    destruct (startswith (strip l) (String c EmptyString)) eqn:W.
    + apply bind_Ok in E as (new & _ & E).
      apply IH in E as [Neg Pos].
      rewrite S, startswith_head in W.
      assert (Head : forall level,
        stop_scan level idx (Some c) (l :: from lines (idx + 1))
        = stop_scan level (idx + 1) (Some c) (from lines (idx + 1))).
      { intros level; cbn [stop_scan continues]; rewrite S, W; reflexivity. }
      destruct (nextIdx_spec lines idx I) as [[E1 B] | (l1 & G & H1 & N1 & B)].
      * rewrite E1 in Neg; specialize (Neg ltac:(lia)); subst nidx.
        repeat split.
        -- left; reflexivity.
        -- intros level; rewrite Head, stop_scan_next, E1 by lia; reflexivity.
        -- intros j l' J _ H'.
           destruct (Z.eq_dec j idx) as [-> | D].
           ++ rewrite H in H'; injection H' as <-; right.
              rewrite S, startswith_head; exact W.
           ++ left; apply (B j l'); [lia | exact H'].
        -- intros _ _ _; lia.
      * destruct (Pos ltac:(lia) (ex_intro _ l1 (conj H1 N1)))
          as (R & Sc & Cov & _).
        repeat split.
        -- destruct R as [R | [R R']]; [left; assumption | right].
           split; [lia | exact R'].
        -- intros level; rewrite Head, stop_scan_next by lia.
           destruct (nextIdx idx lines <? 0) eqn:C;
             [apply Z.ltb_lt in C; lia | apply Sc].
        -- intros j l' J U H'.
           destruct (Z.eq_dec j idx) as [-> | D].
           ++ rewrite H in H'; injection H' as <-; right.
              rewrite S, startswith_head; exact W.
           ++ destruct (Z_lt_le_dec j (nextIdx idx lines)) as [Lt | Ge].
              ** left; apply (B j l'); [lia | exact H'].
              ** apply (Cov j l' Ge U H').
        -- intros _ _ _; lia.
    + injection E as <- <-.
      rewrite S, startswith_head in W.
      repeat split.
      * right; split; [lia | exists l; auto].
      * intros level; rewrite (stop_scan_fresh level l _ idx c a r S W).
        rewrite sectionEnd_nonneg, (from_cons lines idx l I H) by lia.
        reflexivity.
      * intros j l' J [U | U]; lia.
      * intros l' H' W'; rewrite H in H'; injection H' as <-.
        rewrite S, startswith_head, W in W'; discriminate.
  - apply Z.leb_gt in I; intros E; injection E as <- <-.
    split; [reflexivity | lia].
Qed.

(** The run loop does not run out of fuel. *)
Lemma block_loop_fuel (marker : string) (emit : string -> result (list string))
    (lines : list string) (fuel : nat) :
  (forall l, emit l <> OutOfFuel) ->
  forall (out : list string) (idx : Z),
  (0 < fuel)%nat ->
  idx < 0 \/ Z.of_nat (List.length lines) - idx < Z.of_nat fuel ->
  block_loop fuel marker emit lines out idx <> OutOfFuel.
Proof.
  intros Em; induction fuel as [| fuel IH]; intros out idx F B; [lia |].
  cbn [block_loop]; destruct (0 <=? idx) eqn:I; [| discriminate].
  apply Z.leb_le in I.
  destruct (py_index lines idx) as [l | e |] eqn:P; cbn [bind];
    [| discriminate |].
  - destruct (startswith (strip l) marker); [| discriminate].
    destruct (emit l) as [new | e |] eqn:E; cbn [bind]; [| discriminate |].
    + assert (R : idx < Z.of_nat (List.length lines)).
      { apply py_index_nonneg in P; [| exact I].
        assert ((Z.to_nat idx < List.length lines)%nat)
          by (apply nth_error_Some; rewrite P; discriminate).
        lia. }
      apply IH; [lia |].
      destruct (nextIdx_spec lines idx I) as [[E1 _] | (l1 & G & _)];
        [left; lia | right; lia].
    + destruct (Em l E).
  - unfold py_index in P.
    destruct (idx <? 0); destruct (_ && _);
      try destruct (nth_error _ _); discriminate.
Qed.

Lemma runs_block_BodyText : runs_block ":" processBodyText.
Proof.
  exists (fun l => Ok [strip (str_from 1 (strip l))]), [""], [""].
  split; [discriminate |]; split; [discriminate |].
  intros idx lines; unfold processBodyText.
  destruct (block_loop _ _ _ _ _ _) as [[o i] | |]; reflexivity.
Qed.

Lemma runs_block_BodyPreText : runs_block ";" processBodyPreText.
Proof.
  exists (fun l => Ok ["| " +++ strip (str_from 1 (strip l))]), [""], [""].
  split; [discriminate |]; split; [discriminate |].
  intros idx lines; unfold processBodyPreText.
  destruct (block_loop _ _ _ _ _ _) as [[o i] | |]; reflexivity.
Qed.

Lemma runs_block_UserText : runs_block ">" processUserText.
Proof.
  exists (fun l => Ok [strip l]), [], [""].
  split; [discriminate |]; split; [discriminate |].
  intros idx lines; unfold processUserText.
  destruct (block_loop _ _ _ _ _ _) as [[o i] | |]; reflexivity.
Qed.

Lemma runs_block_UserPreText : runs_block "<" processUserPreText.
Proof.
  exists (fun l => Ok [str_from 1 (strip l)]), ["~~~"], ["~~~"].
  split; [discriminate |]; split; [discriminate |].
  intros idx lines; unfold processUserPreText.
  destruct (block_loop _ _ _ _ _ _) as [[o i] | |]; reflexivity.
Qed.

Lemma runs_block_Table : runs_block "|" processTable.
Proof.
  exists tableRow, [], [""].
  split; [| split].
  - intros l; unfold tableRow, str_at.
    destruct (String.get 1 (strip l)) as [c |]; cbn [bind];
      [destruct (Ascii.eqb c "|") |]; discriminate.
  - intros l e; unfold tableRow, str_at.
    destruct (String.get 1 (strip l)) as [c |]; cbn [bind];
      [destruct (Ascii.eqb c "|"); discriminate |].
    intros E; injection E as <-; reflexivity.
  - intros idx lines; unfold processTable.
    destruct (block_loop _ _ _ _ _ _) as [[o i] | |]; reflexivity.
Qed.

Lemma runs_block_fuel (c : ascii)
    (process : Z -> list string -> result (list string * Z))
    (idx : Z) (lines : list string) :
  runs_block c process -> process idx lines <> OutOfFuel.
Proof.
  intros (emit & opening & closing & Em & _ & Eq); rewrite Eq.
  assert (F : block_loop (block_fuel lines) (String c EmptyString) emit lines
                opening idx <> OutOfFuel).
  { apply block_loop_fuel; [exact Em | unfold block_fuel; lia |].
    unfold block_fuel; destruct (Z_lt_le_dec idx 0); [left | right]; lia. }
  destruct (block_loop _ _ _ _ _ _); [discriminate | discriminate | congruence].
Qed.

Lemma is_content_not_checkbox (c : ascii) :
  is_content c = true -> Ascii.eqb c "[" = false.
Proof.
  unfold is_content; intros H.
  repeat (apply orb_prop in H as [H | H]);
    apply Ascii.eqb_eq in H; subst c; reflexivity.
Qed.

(** A content block processor called on a line that starts with its marker
    moves forward, to the line the scan reaches when it follows the run. *)
Lemma runs_block_end (c : ascii)
    (process : Z -> list string -> result (list string * Z))
    (lines : list string) (idx level : Z) (l r : string) (o : list string)
    (nidx : Z) :
  runs_block c process -> is_content c = true ->
  0 <= idx -> nth_error lines (Z.to_nat idx) = Some l ->
  strip l = String c r -> level < depth l ->
  process idx lines = Ok (o, nidx) ->
  advances lines level idx nidx.
Proof.
  intros (emit & opening & closing & _ & _ & Eq) C I H S D E.
  rewrite Eq in E; apply bind_Ok in E as ([o' n'] & E & E').
  cbn [fst snd] in E'; injection E' as <- <-.
  assert (N : nonblank l = true) by (unfold nonblank; rewrite S; reflexivity).
  destruct (block_loop_end c emit lines _ _ _ _ _ E) as [_ Pos].
  destruct (Pos I (ex_intro _ l (conj H N))) as (R & Sc & Cov & Prog).
  assert (W : startswith (strip l) (String c EmptyString) = true)
    by (rewrite S, startswith_head; apply Ascii.eqb_refl).
  specialize (Prog l H W).
  repeat split.
  - destruct R as [R | [R R']]; [left; assumption | right].
    split; [lia | exact R'].
  - rewrite <- Sc, sectionEnd_nonneg by lia.
    rewrite (from_cons lines idx l I H); cbn [stop_scan continues].
    rewrite S, C, Ascii.eqb_refl.
    replace (depth l <=? level) with false; [reflexivity |].
    symmetry; apply Z.leb_gt; exact D.
  - intros j l' J U H'.
    destruct (Cov j l' J U H') as [B | B].
    + rewrite (blank_strip l' B); reflexivity.
    + destruct (strip l') as [| a t]; [reflexivity |].
      rewrite startswith_head in *; apply Ascii.eqb_eq in B; subst a.
      apply is_content_not_checkbox, C.
Qed.

(** A structural line, once the section below it has been processed:
    the loop moves to the end of that section. *)
Lemma structural_end (lines : list string) (idx level : Z) (l r : string)
    (c : ascii) (nidx : Z) :
  0 <= idx -> nth_error lines (Z.to_nat idx) = Some l ->
  strip l = String c r -> is_content c = false -> Ascii.eqb c "[" = false ->
  level < depth l ->
  nidx = sectionEnd (nextIdx idx lines) lines (depth l) ->
  (0 <= nextIdx idx lines -> no_checkbox lines (nextIdx idx lines) nidx) ->
  advances lines level idx nidx.
Proof.
  intros I H S C B D E Cov.
  assert (Here : startswith (strip l) "[" = false)
    by (rewrite S, startswith_head; exact B).
  assert (Step : sectionEnd idx lines level
                 = stop_scan level (idx + 1) None (from lines (idx + 1))).
  { rewrite sectionEnd_nonneg, (from_cons lines idx l I H) by lia.
    cbn [stop_scan continues]; rewrite S, C.
    replace (depth l <=? level) with false; [reflexivity |].
    symmetry; apply Z.leb_gt; exact D. }
  rewrite stop_scan_next in Step by lia.
  destruct (nextIdx_spec lines idx I) as [[E1 Bl] | (l1 & G & H1 & N1 & Bl)].
  - rewrite E1 in *; rewrite sectionEnd_neg in E by lia; subst nidx.
    repeat split; [left; reflexivity | exact Step |].
    intros j l' J _ H'.
    destruct (Z.eq_dec j idx) as [-> | Ne].
    + rewrite H in H'; injection H' as <-; exact Here.
    + rewrite (blank_strip l' (Bl j l' ltac:(lia) H')); reflexivity.
  - set (n1 := nextIdx idx lines) in *.
    replace (n1 <? 0) with false in Step by (symmetry; apply Z.ltb_ge; lia).
    rewrite (stop_scan_nest level (depth l)) in Step by lia.
    rewrite sectionEnd_nonneg in E by lia; rewrite <- E in Step.
    destruct (stop_scan_range (depth l) (from lines n1) n1 None)
      as [E2 | (k & l2 & E2 & H2 & N2 & _)]; rewrite <- E in E2; clear E.
    + subst nidx; repeat split; [left; reflexivity | exact Step |].
      intros j l' J _ H'.
      destruct (Z.eq_dec j idx) as [-> | Ne].
      * rewrite H in H'; injection H' as <-; exact Here.
      * destruct (Z_lt_le_dec j n1) as [Lt | Ge].
        -- rewrite (blank_strip l' (Bl j l' ltac:(lia) H')); reflexivity.
        -- apply (Cov ltac:(lia) j l' Ge); [left; lia | exact H'].
    + replace (nidx <? 0) with false in Step by (symmetry; apply Z.ltb_ge; lia).
      rewrite <- from_shift in Step by lia.
      repeat split.
      * right; split; [lia |]; exists l2; split; [| exact N2].
        rewrite <- (from_nth lines n1) by lia.
        replace (Z.to_nat (nidx - n1)) with k by lia; exact H2.
      * rewrite Step, sectionEnd_nonneg by lia; reflexivity.
      * intros j l' J U H'.
        destruct (Z.eq_dec j idx) as [-> | Ne].
        -- rewrite H in H'; injection H' as <-; exact Here.
        -- destruct (Z_lt_le_dec j n1) as [Lt | Ge].
           ++ rewrite (blank_strip l' (Bl j l' ltac:(lia) H')); reflexivity.
           ++ apply (Cov ltac:(lia) j l' Ge U H').
Qed.
(** ** Where the section processor stops *)

Lemma contentBranch_Ok
    (process : Z -> list string -> result (list string * Z))
    (lines : list string) (st st' : state) (nidx : Z) :
  contentBranch process lines st = Ok (st', nidx) ->
  st_isList st' = false
  /\ exists o, process (st_idx st) lines = Ok (o, nidx).
Proof.
  unfold contentBranch; intros E.
  apply bind_Ok in E as (st2 & F & E).
  apply bind_Ok in E as ([o n] & P & E); injection E as <- <-.
  split; [| exists o; exact P].
  unfold flushPending in F; cbn [st_firstItem st_makeList st_items] in F.
  destruct (negb (st_firstItem st)).
  - apply bind_Ok in F as (rendered & _ & F); injection F as <-; reflexivity.
  - injection F as <-; reflexivity.
Qed.

(** A line that is not deeper than [level] ends the section at once. *)
Lemma shallow_stop (lines : list string) (idx level : Z) (l : string) :
  0 <= idx -> nth_error lines (Z.to_nat idx) = Some l -> nonblank l = true ->
  py_gt (getLevel l) level = Ok false ->
  sectionEnd idx lines level = idx.
Proof.
  intros I H N G.
  destruct (nonblank_depth l N) as [D _]; rewrite D in G.
  injection G as G; apply Z.ltb_ge in G.
  rewrite sectionEnd_nonneg, (from_cons lines idx l I H) by lia.
  destruct (nonblank_strip l N) as (c & r & S).
  cbn [stop_scan continues]; rewrite S.
  replace (depth l <=? level) with true; [reflexivity |].
  symmetry; apply Z.leb_le; exact G.
Qed.

Lemma deeper_depth (l : string) (level : Z) :
  nonblank l = true -> py_gt (getLevel l) level = Ok true ->
  getLevel l = Some (depth l) /\ level < depth l.
Proof.
  intros N G; destruct (nonblank_depth l N) as [D _]; rewrite D in G.
  injection G as G; apply Z.ltb_lt in G; auto.
Qed.

Lemma no_checkbox_trans (lines : list string) (a b c : Z) :
  no_checkbox lines a b -> (b < 0 -> c = b) ->
  (0 <= b -> no_checkbox lines b c) -> no_checkbox lines a c.
Proof.
  intros AB Neg BC j l J U H.
  destruct (Z_lt_le_dec b 0) as [Lt | Ge].
  - apply (AB j l J); [left; exact Lt | exact H].
  - destruct (Z_lt_le_dec j b) as [Lt' | Ge'].
    + apply (AB j l J); [right; exact Lt' | exact H].
    + apply (BC Ge j l Ge' U H).
Qed.

Lemma nextIdx_head (lines : list string) (idx : Z) :
  0 <= idx ->
  nextIdx idx lines < 0
  \/ (0 <= nextIdx idx lines
      /\ exists l, nth_error lines (Z.to_nat (nextIdx idx lines)) = Some l
           /\ nonblank l = true).
Proof.
  intros I.
  destruct (nextIdx_spec lines idx I) as [[E _] | (l & G & H & N & _)];
    [left; lia | right; split; [lia | eauto]].
Qed.

(** The case of a content block in [dispatch]: the test on [start] that
    holds names the marker, and [runs_block_end] applies to the processor
    [Runs] speaks of. *)
Ltac content_branch_advances Runs :=
  match goal with
  | C : Ascii.eqb ?start _ = true,
    Dis : contentBranch _ ?lines _ = Ok (_, ?nidx),
    I : 0 <= _, H : nth_error ?lines _ = Some ?l, S : strip ?l = String _ ?r,
    D : ?level < depth ?l |- _ =>
      apply Ascii.eqb_eq in C; subst start;
      apply contentBranch_Ok in Dis as (_ & o & Dis);
      exact (runs_block_end _ _ lines _ level l r o nidx Runs eq_refl
               I H S D Dis)
  end.

(** Every branch of the loop body that returns moves the loop forward. *)
Lemma dispatch_advances (lines : list string)
    (recur : Z -> Z -> result (list string * Z * bool))
    (st st1 : state) (level : Z) (l r : string) (start : ascii) (nidx : Z) :
  stops_well lines recur ->
  0 <= st_idx st -> nth_error lines (Z.to_nat (st_idx st)) = Some l ->
  strip l = String start r ->
  st_curlevel st = Some (depth l) -> level < depth l ->
  dispatch recur lines st l start = Ok (st1, nidx) ->
  advances lines level (st_idx st) nidx.
Proof.
  intros Rec I H S Cl D Dis; unfold dispatch in Dis.
  destruct (Ascii.eqb start ":") eqn:C1;
    [content_branch_advances runs_block_BodyText |].
  destruct (Ascii.eqb start ";") eqn:C2;
    [content_branch_advances runs_block_BodyPreText |].
  destruct (Ascii.eqb start ">") eqn:C3;
    [content_branch_advances runs_block_UserText |].
  destruct (Ascii.eqb start "<") eqn:C4;
    [content_branch_advances runs_block_UserPreText |].
  destruct (Ascii.eqb start "|") eqn:C5;
    [content_branch_advances runs_block_Table |].
  destruct (Ascii.eqb start "[") eqn:C6; [discriminate |].
  rewrite Cl in Dis.
  apply bind_Ok in Dis as ([[secout n] fl] & Call & Dis).
  injection Dis as _ ->.
  destruct (Rec _ _ _ _ _ Call (nextIdx_head lines _ I)) as [En Cov].
  apply (structural_end lines _ level l r start nidx I H S); try assumption.
  unfold is_content; rewrite C1, C2, C3, C4, C5; reflexivity.
Qed.

(** The state that follows an iteration is again a state at the head of
    the loop. *)
Lemma advances_head (lines : list string) (level idx nidx : Z) (st1 : state)
    (l1 : string) :
  0 <= idx -> advances lines level idx nidx ->
  py_index lines nidx = Ok l1 ->
  at_head lines
    (mkState (st_out st1) (st_isList st1) (st_firstItem st1)
       (st_makeList st1) (st_items st1) (getLevel l1) nidx).
Proof.
  intros I (R & _) Pl1.
  exists l1; cbn [st_idx st_curlevel]; repeat split; [exact Pl1 |].
  destruct R as [R | (R & l2 & H2 & N2)]; [left; lia | right].
  rewrite (nth_py_index lines nidx l2 ltac:(lia) H2) in Pl1.
  injection Pl1 as <-; exact N2.
Qed.

(** The section processor stops where the scan says, and it has seen no
    checkbox line when it returns. *)
Lemma section_positions (lines : list string) (fuel : nat) :
  stops_well lines (fun idx level => processSection fuel idx lines level)
  /\ (forall level st st',
        sectionLoop fuel lines level st = Ok st' ->
        at_head lines st ->
        st_idx st' = sectionEnd (st_idx st) lines level
        /\ (0 <= st_idx st -> no_checkbox lines (st_idx st) (st_idx st'))).
Proof.
  induction fuel as [| fuel [IHs IHl]];
    [split; [unfold stops_well |]; intros; discriminate |].
  split.
  - intros idx level out stop fl E Hd.
    cbn [processSection] in E.
    apply bind_Ok in E as (l & Pl & E).
    apply bind_Ok in E as (deeper & G & E).
    destruct (deeper && (0 <=? idx)) eqn:T.
    + apply andb_prop in T as [-> I]; apply Z.leb_le in I.
      apply bind_Ok in E as (st' & L & E).
      apply bind_Ok in E as (o & _ & E); injection E as <- <- <-.
      destruct Hd as [Hd | (_ & l' & H & N)]; [lia |].
      rewrite (nth_py_index lines idx l' I H) in Pl; injection Pl as ->.
      apply (IHl level _ st' L).
      exists l; cbn [st_idx st_curlevel]; repeat split;
        [apply nth_py_index; assumption | right; exact N].
    + injection E as <- <- <-.
      destruct Hd as [Hd | (I & l' & H & N)].
      * split; [symmetry; apply sectionEnd_neg; exact Hd | lia].
      * rewrite (nth_py_index lines idx l' I H) in Pl; injection Pl as ->.
        replace (0 <=? idx) with true in T by (symmetry; apply Z.leb_le, I).
        rewrite andb_true_r in T; subst deeper.
        split; [symmetry; apply (shallow_stop lines idx level l); assumption |].
        intros _ j l0 J U; lia.
  - intros level st st' E (l & Pl & Cl & Nb).
    cbn [sectionLoop] in E.
    apply bind_Ok in E as (deeper & G & E); rewrite Cl in G.
    destruct (deeper && (0 <=? st_idx st)) eqn:T.
    + apply andb_prop in T as [-> I]; apply Z.leb_le in I.
      destruct Nb as [Nb | Nb]; [lia |].
      rewrite Pl in E; cbn [bind] in E.
      apply bind_Ok in E as (start & S & E).
      apply str_at_0 in S as (r & S).
      apply bind_Ok in E as ([st1 nidx] & Dis & E).
      apply bind_Ok in E as (l1 & Pl1 & E).
      pose proof (py_index_nonneg lines _ l I Pl) as H.
      destruct (deeper_depth l level Nb G) as [Dl D].
      rewrite Dl in Cl.
      pose proof (dispatch_advances lines _ st st1 level l r start nidx
                    IHs I H S Cl D Dis) as Adv.
      destruct (IHl level _ st' E (advances_head lines level _ nidx st1 l1
                                     I Adv Pl1)) as [En Cov'].
      destruct Adv as (R & Eq & Cov).
      cbn [st_idx] in En, Cov'.
      split; [rewrite En; symmetry; exact Eq |].
      intros _; apply (no_checkbox_trans lines _ nidx _ Cov).
      * intros Lt; rewrite En; apply sectionEnd_neg; exact Lt.
      * exact Cov'.
    + injection E as <-.
      destruct (Z_lt_le_dec (st_idx st) 0) as [Lt | Ge].
      * split; [symmetry; apply sectionEnd_neg; exact Lt | lia].
      * destruct Nb as [Nb | Nb]; [lia |].
        replace (0 <=? st_idx st) with true in T
          by (symmetry; apply Z.leb_le, Ge).
        rewrite andb_true_r in T; subst deeper.
        pose proof (py_index_nonneg lines _ l Ge Pl) as H.
        split; [symmetry; apply (shallow_stop lines _ level l); assumption |].
        intros _ j l0 J U; lia.
Qed.
(** ** Fuel *)

Lemma py_index_fuel (lines : list string) (i : Z) :
  py_index lines i <> OutOfFuel.
Proof.
  unfold py_index; destruct (_ && _); [| discriminate].
  destruct (nth_error _ _); discriminate.
Qed.

Lemma py_index_range (lines : list string) (i : Z) (l : string) :
  0 <= i -> py_index lines i = Ok l -> i < Z.of_nat (List.length lines).
Proof.
  intros I P; apply py_index_nonneg in P; [| exact I].
  assert ((Z.to_nat i < List.length lines)%nat)
    by (apply nth_error_Some; rewrite P; discriminate).
  lia.
Qed.

Lemma renderHeaders_fuel {A : Type} `{Unpack A} (items : list A) :
  (forall x, unpack x <> OutOfFuel) -> renderHeaders items <> OutOfFuel.
Proof.
  intros U; induction items as [| x items IH]; cbn [renderHeaders];
    [discriminate |].
  specialize (U x); destruct (unpack x) as [[line content] | e |];
    cbn [bind]; [| discriminate | congruence].
  destruct (makeHeader _ _) as [h | e |] eqn:M; cbn [bind];
    [| discriminate |].
  - destruct (renderHeaders items); cbn [bind]; [discriminate .. | congruence].
  - unfold makeHeader in M; destruct (getLevel line); discriminate.
Qed.

Lemma unpack_item_fuel (x : item) : unpack x <> OutOfFuel.
Proof. discriminate. Qed.

Lemma unpack_str_fuel (x : string) : unpack x <> OutOfFuel.
Proof.
  unfold unpack, unpack_str; destruct x as [| a [| b [| c r]]]; discriminate.
Qed.

Lemma flushPending_fuel (st : state) : flushPending st <> OutOfFuel.
Proof.
  unfold flushPending; destruct (negb _); [| discriminate].
  destruct (st_makeList st); cbn [bind]; [discriminate |].
  pose proof (renderHeaders_fuel (renderList (st_items st)) unpack_str_fuel).
  destruct (renderHeaders _); cbn [bind]; [discriminate .. | congruence].
Qed.

Lemma finalFlush_fuel (st : state) : finalFlush st <> OutOfFuel.
Proof.
  unfold finalFlush; destruct (negb _); [| discriminate].
  destruct (st_makeList st); cbn [bind]; [discriminate |].
  pose proof (renderHeaders_fuel (st_items st) unpack_item_fuel).
  destruct (renderHeaders _); cbn [bind]; [discriminate .. | congruence].
Qed.

Lemma contentBranch_fuel (c : ascii)
    (process : Z -> list string -> result (list string * Z))
    (lines : list string) (st : state) :
  runs_block c process -> contentBranch process lines st <> OutOfFuel.
Proof.
  intros R; unfold contentBranch.
  pose proof (flushPending_fuel
    (mkState (st_out st) false (st_firstItem st) (st_makeList st)
       (st_items st) (st_curlevel st) (st_idx st))) as F.
  destruct (flushPending _) as [st2 | e |]; cbn [bind];
    [| discriminate | congruence].
  pose proof (runs_block_fuel c process (st_idx st) lines R) as P.
  destruct (process _ _) as [[o n] | e |]; cbn [bind];
    [discriminate .. | congruence].
Qed.

Ltac content_branch_fuel Runs :=
  let E := fresh "E" in
  intros E; destruct (contentBranch_fuel _ _ _ _ Runs E).

(** The loop body runs out of fuel only if the recursive call does. *)
Lemma dispatch_fuel (recur : Z -> Z -> result (list string * Z * bool))
    (lines : list string) (st : state) (curline : string) (start : ascii) :
  dispatch recur lines st curline start = OutOfFuel ->
  exists curlevel, st_curlevel st = Some curlevel
    /\ recur (nextIdx (st_idx st) lines) curlevel = OutOfFuel.
Proof.
  unfold dispatch.
  destruct (Ascii.eqb start ":"); [content_branch_fuel runs_block_BodyText |].
  destruct (Ascii.eqb start ";");
    [content_branch_fuel runs_block_BodyPreText |].
  destruct (Ascii.eqb start ">"); [content_branch_fuel runs_block_UserText |].
  destruct (Ascii.eqb start "<");
    [content_branch_fuel runs_block_UserPreText |].
  destruct (Ascii.eqb start "|"); [content_branch_fuel runs_block_Table |].
  destruct (Ascii.eqb start "["); [discriminate |].
  destruct (st_curlevel st) as [curlevel |]; [| discriminate].
  intros E; exists curlevel; split; [reflexivity |].
  destruct (recur _ _) as [[[secout n] fl] | e |];
    [discriminate .. | reflexivity].
Qed.

Lemma remaining_next (lines : list string) (idx nidx : Z) :
  0 <= idx < Z.of_nat (List.length lines) ->
  nidx = -1 \/ idx < nidx ->
  (remaining lines nidx < remaining lines idx)%nat.
Proof.
  intros I R; unfold remaining.
  destruct (idx <? 0) eqn:A; [apply Z.ltb_lt in A; lia |].
  destruct (nidx <? 0) eqn:B; [lia |].
  apply Z.ltb_ge in B; lia.
Qed.

(** Twice the number of lines ahead, and a little, is fuel enough. *)
Lemma section_fuel_enough (lines : list string) (fuel : nat) :
  (forall idx level,
     (2 * remaining lines idx + 2 <= fuel)%nat ->
     processSection fuel idx lines level <> OutOfFuel)
  /\ (forall level st,
        (2 * remaining lines (st_idx st) + 1 <= fuel)%nat ->
        at_head lines st ->
        sectionLoop fuel lines level st <> OutOfFuel).
Proof.
  induction fuel as [| fuel [IHs IHl]]; [split; intros; lia |].
  split.
  - intros idx level B E; cbn [processSection] in E.
    apply bind_fuel in E as [E | (l & Pl & E)];
      [exact (py_index_fuel _ _ E) |].
    apply bind_fuel in E as [E | (deeper & G & E)];
      [destruct (getLevel l); discriminate |].
    destruct (deeper && (0 <=? idx)) eqn:T; [| discriminate].
    apply andb_prop in T as [-> I]; apply Z.leb_le in I.
    apply bind_fuel in E as [E | (st' & _ & E)].
    + destruct (nonblank l) eqn:N.
      * revert E; apply IHl; [cbn [st_idx]; lia |].
        exists l; cbn [st_idx st_curlevel]; auto.
      * destruct fuel as [| fuel']; [lia |].
        cbn [sectionLoop st_curlevel st_idx] in E.
        rewrite G in E; cbn [bind] in E.
        replace (0 <=? idx) with true in E by (symmetry; apply Z.leb_le, I).
        cbn [andb] in E; rewrite Pl in E; cbn [bind] in E.
        rewrite (blank_strip l N) in E; discriminate.
    + apply bind_fuel in E as [E | (o & _ & E)];
        [exact (finalFlush_fuel _ E) | discriminate].
  - intros level st B (l & Pl & Cl & Nb) E; cbn [sectionLoop] in E.
    apply bind_fuel in E as [E | (deeper & G & E)];
      [destruct (st_curlevel st); discriminate |].
    destruct (deeper && (0 <=? st_idx st)) eqn:T; [| discriminate].
    apply andb_prop in T as [-> I]; apply Z.leb_le in I.
    destruct Nb as [Nb | Nb]; [lia |].
    rewrite Pl in E; cbn [bind] in E.
    apply bind_fuel in E as [E | (start & S & E)];
      [unfold str_at in E; destruct (String.get _ _); discriminate |].
    apply str_at_0 in S as (r & S).
    pose proof (py_index_nonneg lines _ l I Pl) as H.
    pose proof (py_index_range lines _ l I Pl) as Rg.
    rewrite Cl in G; destruct (deeper_depth l level Nb G) as [Dl D].
    rewrite Dl in Cl.
    apply bind_fuel in E as [E | ([st1 nidx] & Dis & E)].
    + apply dispatch_fuel in E as (curlevel & _ & E).
      revert E; apply IHs.
      assert (remaining lines (nextIdx (st_idx st) lines)
              < remaining lines (st_idx st))%nat; [| lia].
      apply remaining_next; [lia |].
      destruct (nextIdx_spec lines _ I) as [[E1 _] | (l0 & G0 & _)];
        [left; exact E1 | right; exact G0].
    + pose proof (dispatch_advances lines _ st st1 level l r start nidx
                    (proj1 (section_positions lines fuel)) I H S Cl D Dis)
        as Adv.
      apply bind_fuel in E as [E | (l1 & Pl1 & E)];
        [exact (py_index_fuel _ _ E) |].
      revert E; apply IHl;
        [| exact (advances_head lines level _ nidx st1 l1 I Adv Pl1)].
      cbn [st_idx].
      assert (remaining lines nidx < remaining lines (st_idx st))%nat; [| lia].
      apply remaining_next; [lia |].
      destruct Adv as ([R | [R _]] & _); [left | right]; exact R.
Qed.

Lemma remaining_le (lines : list string) (idx : Z) :
  (remaining lines idx <= List.length lines)%nat \/ idx < 0.
Proof.
  unfold remaining; destruct (idx <? 0) eqn:A;
    [left; lia | apply Z.ltb_ge in A; left; lia].
Qed.

(** The fuel [main] passes is never exhausted, wherever the section
    starts. *)
Lemma fuel_enough (lines : list string) (idx level : Z) :
  processSection (section_fuel lines) idx lines level <> OutOfFuel.
Proof.
  apply (proj1 (section_fuel_enough lines (section_fuel lines))).
  unfold section_fuel; destruct (remaining_le lines idx) as [B | B]; [lia |].
  unfold remaining; apply Z.ltb_lt in B; rewrite B; lia.
Qed.

(** *** More fuel changes no result *)

Lemma refines_refl {A : Type} (r : result A) : refines r r.
Proof. right; reflexivity. Qed.

Lemma refines_bind {A B : Type} (m m' : result A)
    (k k' : A -> result B) :
  refines m m' -> (forall a, refines (k a) (k' a)) ->
  refines (bind m k) (bind m' k').
Proof.
  intros [-> | ->] K; [left; reflexivity |].
  destruct m as [a | e |]; cbn [bind];
    [apply K | right; reflexivity | left; reflexivity].
Qed.

Lemma refines_dispatch
    (recur recur' : Z -> Z -> result (list string * Z * bool))
    (lines : list string) (st : state) (curline : string) (start : ascii) :
  (forall i lv, refines (recur i lv) (recur' i lv)) ->
  refines (dispatch recur lines st curline start)
    (dispatch recur' lines st curline start).
Proof.
  intros R; unfold dispatch.
  repeat (match goal with
          | |- refines (if ?b then _ else _) _ => destruct b
          end; [apply refines_refl |]).
  destruct (st_curlevel st) as [curlevel |]; [| apply refines_refl].
  apply refines_bind; [apply R | intros a; apply refines_refl].
Qed.

Lemma fuel_step (lines : list string) (fuel : nat) :
  (forall idx level,
     refines (processSection fuel idx lines level)
       (processSection (S fuel) idx lines level))
  /\ (forall level st,
        refines (sectionLoop fuel lines level st)
          (sectionLoop (S fuel) lines level st)).
Proof.
  induction fuel as [| fuel [IHs IHl]]; [split; intros; left; reflexivity |].
  split.
  - intros idx level.
    change (processSection (S fuel) idx lines level) with
      (let* l := py_index lines idx in
       let* deeper := py_gt (getLevel l) level in
       if deeper && (0 <=? idx) then
         let* st := sectionLoop fuel lines level
                      (mkState [] true true false [] (getLevel l) idx) in
         let* out := finalFlush st in
         Ok (out, st_idx st, st_isList st)
       else Ok ([""], idx, true)).
    change (processSection (S (S fuel)) idx lines level) with
      (let* l := py_index lines idx in
       let* deeper := py_gt (getLevel l) level in
       if deeper && (0 <=? idx) then
         let* st := sectionLoop (S fuel) lines level
                      (mkState [] true true false [] (getLevel l) idx) in
         let* out := finalFlush st in
         Ok (out, st_idx st, st_isList st)
       else Ok ([""], idx, true)).
    apply refines_bind; [apply refines_refl | intros l].
    apply refines_bind; [apply refines_refl | intros deeper].
    destruct (deeper && (0 <=? idx)); [| apply refines_refl].
    apply refines_bind; [apply IHl | intros st; apply refines_refl].
  - intros level st.
    change (sectionLoop (S fuel) lines level st) with
      (let* deeper := py_gt (st_curlevel st) level in
       if deeper && (0 <=? st_idx st) then
         let* curline := py_index lines (st_idx st) in
         let* start := str_at (strip curline) 0 in
         let* (st', nidx) :=
           dispatch (fun idx' level' => processSection fuel idx' lines level')
             lines st curline start in
         let* l := py_index lines nidx in
         sectionLoop fuel lines level
           (mkState (st_out st') (st_isList st') (st_firstItem st')
              (st_makeList st') (st_items st') (getLevel l) nidx)
       else Ok st).
    change (sectionLoop (S (S fuel)) lines level st) with
      (let* deeper := py_gt (st_curlevel st) level in
       if deeper && (0 <=? st_idx st) then
         let* curline := py_index lines (st_idx st) in
         let* start := str_at (strip curline) 0 in
         let* (st', nidx) :=
           dispatch
             (fun idx' level' => processSection (S fuel) idx' lines level')
             lines st curline start in
         let* l := py_index lines nidx in
         sectionLoop (S fuel) lines level
           (mkState (st_out st') (st_isList st') (st_firstItem st')
              (st_makeList st') (st_items st') (getLevel l) nidx)
       else Ok st).
    apply refines_bind; [apply refines_refl | intros deeper].
    destruct (deeper && (0 <=? st_idx st)); [| apply refines_refl].
    apply refines_bind; [apply refines_refl | intros curline].
    apply refines_bind; [apply refines_refl | intros start].
    apply refines_bind; [apply refines_dispatch; exact IHs | intros [st' nidx]].
    apply refines_bind; [apply refines_refl | intros l; apply IHl].
Qed.

(** A result obtained with some fuel is the result with any larger fuel. *)
Lemma fuel_mono (lines : list string) (fuel fuel' : nat) :
  (fuel <= fuel')%nat ->
  (forall idx level,
     refines (processSection fuel idx lines level)
       (processSection fuel' idx lines level))
  /\ (forall level st,
        refines (sectionLoop fuel lines level st)
          (sectionLoop fuel' lines level st)).
Proof.
  induction 1 as [| fuel' _ [IHs IHl]];
    [split; intros; apply refines_refl |].
  destruct (fuel_step lines fuel') as [Ss Sl].
  split.
  - intros idx level; destruct (IHs idx level) as [E | E];
      [left; exact E | rewrite <- E; apply Ss].
  - intros level st; destruct (IHl level st) as [E | E];
      [left; exact E | rewrite <- E; apply Sl].
Qed.

(** A result obtained with any fuel is the result [main]'s fuel gives. *)
Lemma fuel_any (lines : list string) (fuel : nat) (idx level : Z)
    (r : list string * Z * bool) :
  processSection fuel idx lines level = Ok r ->
  processSection (section_fuel lines) idx lines level = Ok r.
Proof.
  intros E.
  destruct (Nat.le_ge_cases fuel (section_fuel lines)) as [L | L].
  - destruct (proj1 (fuel_mono lines _ _ L) idx level) as [F | F];
      [congruence | rewrite F; exact E].
  - destruct (proj1 (fuel_mono lines _ _ L) idx level) as [F | F];
      [destruct (fuel_enough lines idx level F) | congruence].
Qed.
(** ** The contract of the section processor *)

(** C1 (as stated, refuted): in [A], [\t:text], [:more] the section below
    [A] starts at line 1 with enclosing level 0.  The first line of depth at
    most 0 is line 2, but the body text run takes it: the call returns the
    end of input. *)
Lemma contract_stop_refuted :
  let lines := [ln 0 "A"; ln 1 ":text"; ln 0 ":more"] in
  ~ (forall out stop fl,
       processSection (section_fuel lines) 1 lines 0 = Ok (out, stop, fl) ->
       stop = contractEnd 1 lines 0).
Proof.
  intros lines C.
  specialize (C [""; "text"; "more"; ""] (-1) false eq_refl).
  vm_compute in C; discriminate C.
Qed.

(** C1 (amended): a call [processSection(pos, level)] with [pos] at a line
    that is not blank never exhausts its fuel, and when it returns, the
    position it returns is the one the scan [sectionEnd] gives: the scan
    consumes, from [pos] on, the lines deeper than [level] and, whatever
    their depth, the lines that continue a content block run, and stops at
    the first other line of depth at most [level], or with [-1] at the end
    of the input.  The stopping position is therefore [-1] or the position,
    not before [pos], of a line that is not blank and of depth at most
    [level]. *)
Theorem section_contract (lines : list string) (pos level : Z) (l : string) :
  0 <= pos -> nth_error lines (Z.to_nat pos) = Some l -> nonblank l = true ->
  processSection (section_fuel lines) pos lines level <> OutOfFuel
  /\ forall out stop fl,
       processSection (section_fuel lines) pos lines level
       = Ok (out, stop, fl) ->
       stop = sectionEnd pos lines level
       /\ (stop = -1
           \/ pos <= stop
              /\ exists l', nth_error lines (Z.to_nat stop) = Some l'
                   /\ nonblank l' = true /\ depth l' <= level).
Proof.
  intros P H N; split; [apply fuel_enough |].
  intros out stop fl E.
  destruct (proj1 (section_positions lines (section_fuel lines))
              pos level out stop fl E) as [En _];
    [right; split; [exact P | eauto] |].
  split; [exact En |].
  rewrite En, sectionEnd_nonneg by exact P.
  destruct (stop_scan_range level (from lines pos) pos None)
    as [S | (k & l' & S & H' & N' & D')]; [left; exact S | right].
  rewrite S; split; [lia |].
  exists l'; repeat split; [| exact N' | exact D'].
  rewrite <- (from_nth lines pos) by lia.
  replace (Z.to_nat (pos + Z.of_nat k - pos)) with k by lia; exact H'.
Qed.

Lemma section_contract_witness :
  let lines := [ln 0 "A"; ln 1 ":text"; ln 0 ":more"; ln 0 "B"] in
  processSection (section_fuel lines) 1 lines 0
  = Ok ([""; "text"; "more"; ""], 3, false)
  /\ 3 = sectionEnd 1 lines 0.
Proof.
  intros lines; split; [reflexivity |].
  exact (proj1 (proj2 (section_contract lines 1 0 (ln 1 ":text")
                         ltac:(lia) eq_refl eq_refl)
                  [""; "text"; "more"; ""] 3 false eq_refl)).
Defined.
(** ** Checkbox lines *)

Lemma main_fuel (lines : list string) : main lines <> OutOfFuel.
Proof.
  unfold main; pose proof (fuel_enough lines 0 (-1)) as F.
  destruct (processSection _ _ _ _) as [[[out stop] fl] | e |];
    cbn [bind]; [discriminate | discriminate | congruence].
Qed.

(** At the top level every line is deeper than the enclosing level, so a
    blank first line is examined, and [curline.strip()[0]] fails. *)
Lemma blank_first_line (lines : list string) (l : string) (fuel : nat)
    (r : list string * Z * bool) :
  nth_error lines 0 = Some l -> nonblank l = false ->
  processSection fuel 0 lines (-1) <> Ok r.
Proof.
  intros H B E; destruct fuel as [| fuel]; [discriminate |].
  cbn [processSection] in E.
  rewrite (nth_py_index lines 0 l ltac:(lia) H) in E; cbn [bind] in E.
  apply bind_Ok in E as (deeper & G & E).
  destruct (getLevel l) as [d |] eqn:Gl; [| discriminate].
  injection G as <-.
  pose proof (getLevel_from_ge 0 d l Gl) as D.
  replace (-1 <? d) with true in E by (symmetry; apply Z.ltb_lt; lia).
  cbn [andb Z.leb Z.compare] in E.
  apply bind_Ok in E as (st & L & _).
  destruct fuel as [| fuel]; [discriminate |].
  cbn [sectionLoop st_curlevel st_idx py_gt bind] in L.
  replace (-1 <? d) with true in L by (symmetry; apply Z.ltb_lt; lia).
  cbn [andb Z.leb Z.compare] in L.
  rewrite (nth_py_index lines 0 l ltac:(lia) H) in L; cbn [bind] in L.
  rewrite (blank_strip l B) in L; discriminate.
Qed.

(** An input that is converted has no checkbox line. *)
Lemma converted_no_checkbox (lines : list string) (out : list string) :
  main lines = Ok out ->
  forall l, In l lines -> startswith (strip l) "[" = false.
Proof.
  unfold main; intros E.
  apply bind_Ok in E as ([[o stop] fl] & E & _).
  destruct lines as [| l0 rest] eqn:Ls; [intros l []|]; rewrite <- Ls in *.
  assert (H0 : nth_error lines 0 = Some l0) by (rewrite Ls; reflexivity).
  destruct (nonblank l0) eqn:N0;
    [| destruct (blank_first_line lines l0 _ _ H0 N0 E)].
  destruct (proj1 (section_positions lines _) 0 (-1) o stop fl E) as [En Cov];
    [right; split; [lia | eauto] |].
  specialize (Cov ltac:(lia)).
  assert (S : stop = -1).
  { rewrite En, sectionEnd_nonneg by lia.
    destruct (stop_scan_range (-1) (from lines 0) 0 None)
      as [S | (k & l' & _ & _ & N' & D')]; [exact S |].
    destruct (nonblank_depth l' N'); lia. }
  intros l Hin; apply In_nth_error in Hin as [n Hn].
  apply (Cov (Z.of_nat n) l); [lia | left; lia |].
  rewrite Nat2Z.id; exact Hn.
Qed.

Lemma dispatch_checkbox (recur : Z -> Z -> result (list string * Z * bool))
    (lines : list string) (st : state) (curline : string) :
  dispatch recur lines st curline "[" = Raise (SystemExit checkbox_message).
Proof. reflexivity. Qed.

Lemma is_structural_dispatch
    (recur : Z -> Z -> result (list string * Z * bool))
    (lines : list string) (st : state) (curline : string) (start : ascii)
    (curlevel : Z) :
  is_structural start = true -> st_curlevel st = Some curlevel ->
  dispatch recur lines st curline start
  = bind (recur (nextIdx (st_idx st) lines) curlevel)
      (fun r => Ok (addItem curline (fst (fst r)) (snd r) st, snd (fst r))).
Proof.
  unfold is_structural, is_content, dispatch; intros S C.
  apply andb_prop in S as [S1 S2].
  apply negb_true_iff in S1, S2.
  repeat (apply orb_false_elim in S1 as [S1 ?]).
  repeat match goal with
         | E : Ascii.eqb start _ = false |- _ => rewrite E; clear E
         end.
  rewrite C; destruct (recur _ _) as [[[secout n] fl] | e |]; reflexivity.
Qed.

(** A checkbox line that the section processor examines stops the run with
    [SystemExit]: the error passes through every enclosing loop and call. *)
Lemma examined_checkbox (lines : list string) (i : Z) (l : string) :
  py_index lines i = Ok l -> startswith (strip l) "[" = true ->
  forall fuel,
    (forall idx level,
       examinedSection fuel idx lines level i ->
       processSection fuel idx lines level
       = Raise (SystemExit checkbox_message))
    /\ (forall level st,
          examinedLoop fuel lines level st i ->
          sectionLoop fuel lines level st
          = Raise (SystemExit checkbox_message)).
Proof.
  intros Pl W; induction fuel as [| fuel [IHs IHl]];
    [split; intros; contradiction |].
  split.
  - intros idx level (l0 & P0 & G & I & X).
    cbn [processSection]; rewrite P0; cbn [bind]; rewrite G; cbn [bind].
    replace (0 <=? idx) with true by (symmetry; apply Z.leb_le, I).
    cbn [andb]; rewrite (IHl level _ X); reflexivity.
  - intros level st (G & I & X).
    cbn [sectionLoop]; rewrite G; cbn [bind].
    replace (0 <=? st_idx st) with true by (symmetry; apply Z.leb_le, I).
    cbn [andb].
    destruct X as [<- | (curline & start & P0 & S0 & X)].
    + rewrite Pl; cbn [bind].
      destruct (strip l) as [| c r] eqn:S; [discriminate |].
      rewrite startswith_head in W; apply Ascii.eqb_eq in W; subst c.
      reflexivity.
    + rewrite P0; cbn [bind]; rewrite S0; cbn [bind].
      destruct X as [(curlevel & St & C & X) | (st' & nidx & l1 & D & P1 & X)].
      * rewrite (is_structural_dispatch _ lines st curline start curlevel St C).
        rewrite (IHs _ _ X); reflexivity.
      * rewrite D; cbn [bind]; rewrite P1; cbn [bind].
        apply (IHl level _ X).
Qed.

(** *** Only a checkbox line stops the run with [SystemExit] *)

Lemma bind_Raise {A B : Type} (m : result A) (k : A -> result B) (e : exn) :
  bind m k = Raise e ->
  m = Raise e \/ exists a, m = Ok a /\ k a = Raise e.
Proof.
  destruct m as [a | e' |]; cbn [bind]; intros E; [eauto | | discriminate].
  left; injection E as ->; reflexivity.
Qed.

Lemma py_index_error (lines : list string) (i : Z) (e : exn) :
  py_index lines i = Raise e -> is_exit e = false.
Proof.
  unfold py_index; destruct (_ && _); [destruct (nth_error _ _) |];
    intros E; try discriminate; injection E as <-; reflexivity.
Qed.

Lemma py_gt_error (a : option Z) (b : Z) (e : exn) :
  py_gt a b = Raise e -> is_exit e = false.
Proof.
  destruct a; intros E; [discriminate | injection E as <-; reflexivity].
Qed.

Lemma str_at_error (s : string) (n : nat) (e : exn) :
  str_at s n = Raise e -> is_exit e = false.
Proof.
  unfold str_at; destruct (String.get n s); intros E;
    [discriminate | injection E as <-; reflexivity].
Qed.

Lemma renderHeaders_error {A : Type} `{Unpack A} (items : list A) (e : exn) :
  (forall x e', unpack x = Raise e' -> is_exit e' = false) ->
  renderHeaders items = Raise e -> is_exit e = false.
Proof.
  intros U; induction items as [| x items IH]; cbn [renderHeaders];
    [discriminate |].
  intros E; apply bind_Raise in E as [E | ([line content] & _ & E)];
    [exact (U x e E) |].
  apply bind_Raise in E as [E | (h & _ & E)].
  - unfold makeHeader in E; destruct (getLevel line); [discriminate |].
    injection E as <-; reflexivity.
  - apply bind_Raise in E as [E | (o & _ & E)]; [exact (IH E) | discriminate].
Qed.

Lemma unpack_str_error (x : string) (e : exn) :
  unpack x = Raise e -> is_exit e = false.
Proof.
  unfold unpack, unpack_str; destruct x as [| a [| b [| c r]]]; intros E;
    try discriminate; injection E as <-; reflexivity.
Qed.

Lemma unpack_item_error (x : item) (e : exn) :
  unpack x = Raise e -> is_exit e = false.
Proof. discriminate. Qed.

Lemma flushPending_error (st : state) (e : exn) :
  flushPending st = Raise e -> is_exit e = false.
Proof.
  unfold flushPending; destruct (negb _); [| discriminate].
  intros E; apply bind_Raise in E as [E | (o & _ & E)]; [| discriminate].
  destruct (st_makeList st); [discriminate |].
  exact (renderHeaders_error _ e unpack_str_error E).
Qed.

Lemma finalFlush_error (st : state) (e : exn) :
  finalFlush st = Raise e -> is_exit e = false.
Proof.
  unfold finalFlush; destruct (negb _); [| discriminate].
  intros E; apply bind_Raise in E as [E | (o & _ & E)]; [| discriminate].
  destruct (st_makeList st); [discriminate |].
  exact (renderHeaders_error _ e unpack_item_error E).
Qed.

Lemma block_loop_error (marker : string)
    (emit : string -> result (list string)) (lines : list string)
    (fuel : nat) (e : exn) :
  (forall l e', emit l = Raise e' -> is_exit e' = false) ->
  forall out idx,
    block_loop fuel marker emit lines out idx = Raise e -> is_exit e = false.
Proof.
  intros Em; induction fuel as [| fuel IH]; intros out idx; cbn [block_loop];
    [discriminate |].
  destruct (0 <=? idx); [| discriminate].
  intros E; apply bind_Raise in E as [E | (l & _ & E)];
    [exact (py_index_error _ _ _ E) |].
  destruct (startswith (strip l) marker); [| discriminate].
  apply bind_Raise in E as [E | (new & _ & E)];
    [exact (Em l e E) | exact (IH _ _ E)].
Qed.

Lemma contentBranch_error (c : ascii)
    (process : Z -> list string -> result (list string * Z))
    (lines : list string) (st : state) (e : exn) :
  runs_block c process ->
  contentBranch process lines st = Raise e -> is_exit e = false.
Proof.
  intros (emit & opening & closing & _ & Em & Eq); unfold contentBranch.
  intros E; apply bind_Raise in E as [E | (st2 & _ & E)];
    [exact (flushPending_error _ _ E) |].
  apply bind_Raise in E as [E | ([o n] & _ & E)]; [| discriminate].
  rewrite Eq in E; apply bind_Raise in E as [E | (r & _ & E)];
    [| discriminate].
  exact (block_loop_error _ emit lines _ e Em _ _ E).
Qed.

Ltac content_branch_error Runs :=
  let E := fresh "E" in
  let X := fresh "X" in
  intros E X; rewrite (contentBranch_error _ _ _ _ _ Runs E) in X;
  discriminate X.

(** When the loop body exits, the line starts with [[], or the call for
    the section below a structural line has exited. *)
Lemma dispatch_exit (recur : Z -> Z -> result (list string * Z * bool))
    (lines : list string) (st : state) (curline : string) (start : ascii)
    (e : exn) :
  dispatch recur lines st curline start = Raise e -> is_exit e = true ->
  start = "["%char
  \/ (is_structural start = true
      /\ exists curlevel, st_curlevel st = Some curlevel
           /\ recur (nextIdx (st_idx st) lines) curlevel = Raise e).
Proof.
  unfold dispatch, is_structural, is_content.
  destruct (Ascii.eqb start ":"); [content_branch_error runs_block_BodyText |].
  destruct (Ascii.eqb start ";");
    [content_branch_error runs_block_BodyPreText |].
  destruct (Ascii.eqb start ">"); [content_branch_error runs_block_UserText |].
  destruct (Ascii.eqb start "<");
    [content_branch_error runs_block_UserPreText |].
  destruct (Ascii.eqb start "|"); [content_branch_error runs_block_Table |].
  destruct (Ascii.eqb start "[") eqn:C;
    [intros _ _; left; apply Ascii.eqb_eq, C |].
  destruct (st_curlevel st) as [curlevel |];
    [| intros E X; injection E as <-; discriminate X].
  intros E _; right; split; [reflexivity |].
  exists curlevel; split; [reflexivity |].
  apply bind_Raise in E as [E | ([[secout n] fl] & _ & E)];
    [exact E | discriminate].
Qed.

(** A run that stops with [SystemExit] has examined a checkbox line. *)
Lemma exit_examined (lines : list string) (fuel : nat) :
  (forall idx level e,
     processSection fuel idx lines level = Raise e -> is_exit e = true ->
     exists i l, examinedSection fuel idx lines level i
       /\ py_index lines i = Ok l /\ startswith (strip l) "[" = true)
  /\ (forall level st e,
        sectionLoop fuel lines level st = Raise e -> is_exit e = true ->
        exists i l, examinedLoop fuel lines level st i
          /\ py_index lines i = Ok l /\ startswith (strip l) "[" = true).
Proof.
  induction fuel as [| fuel [IHs IHl]]; [split; intros; discriminate |].
  split.
  - intros idx level e E X; cbn [processSection] in E.
    apply bind_Raise in E as [E | (l0 & P0 & E)];
      [rewrite (py_index_error _ _ _ E) in X; discriminate |].
    apply bind_Raise in E as [E | (deeper & G & E)];
      [rewrite (py_gt_error _ _ _ E) in X; discriminate |].
    destruct (deeper && (0 <=? idx)) eqn:T; [| discriminate].
    apply andb_prop in T as [-> I]; apply Z.leb_le in I.
    apply bind_Raise in E as [E | (st' & _ & E)].
    + destruct (IHl _ _ _ E X) as (i & l & Ex & Pl & W).
      exists i, l; repeat split; try assumption.
      exists l0; auto.
    + apply bind_Raise in E as [E | (o & _ & E)]; [| discriminate].
      rewrite (finalFlush_error _ _ E) in X; discriminate.
  - intros level st e E X; cbn [sectionLoop] in E.
    apply bind_Raise in E as [E | (deeper & G & E)];
      [rewrite (py_gt_error _ _ _ E) in X; discriminate |].
    destruct (deeper && (0 <=? st_idx st)) eqn:T; [| discriminate].
    apply andb_prop in T as [-> I]; apply Z.leb_le in I.
    apply bind_Raise in E as [E | (curline & Pc & E)];
      [rewrite (py_index_error _ _ _ E) in X; discriminate |].
    apply bind_Raise in E as [E | (start & S & E)];
      [rewrite (str_at_error _ _ _ E) in X; discriminate |].
    apply bind_Raise in E as [E | ([st' nidx] & Dis & E)].
    + apply dispatch_exit in E as [-> | (St & curlevel & Cl & E)];
        [| | exact X].
      * exists (st_idx st), curline; repeat split; try assumption.
        -- left; reflexivity.
        -- apply str_at_0 in S as (r & ->); reflexivity.
      * destruct (IHs _ _ _ E X) as (i & l & Ex & Pl & W).
        exists i, l; repeat split; try assumption.
        right; exists curline, start; repeat split; try assumption.
        left; exists curlevel; auto.
    + apply bind_Raise in E as [E | (l1 & P1 & E)];
        [rewrite (py_index_error _ _ _ E) in X; discriminate |].
      destruct (IHl _ _ _ E X) as (i & l & Ex & Pl & W).
      exists i, l; repeat split; try assumption.
      right; exists curline, start; repeat split; try assumption.
      right; exists st', nidx, l1; auto.
Qed.

(** The hard stop occurs only where a checkbox line is examined. *)
Lemma exit_only_at_checkbox (lines : list string) (message : string) :
  main lines = Raise (SystemExit message) ->
  exists i l,
    examinedSection (section_fuel lines) 0 lines (-1) i
    /\ py_index lines i = Ok l /\ startswith (strip l) "[" = true.
Proof.
  unfold main; intros E.
  apply bind_Raise in E as [E | ([[o stop] fl] & _ & E)]; [| discriminate].
  exact (proj1 (exit_examined lines _) 0 (-1) _ E eq_refl).
Qed.

(** The first line of an input is examined. *)
Lemma first_line_examined (l : string) (rest : list string) (d : Z) :
  getLevel l = Some d ->
  examinedSection (section_fuel (l :: rest)) 0 (l :: rest) (-1) 0.
Proof.
  intros G; pose proof (getLevel_from_ge 0 d l G) as D.
  assert (P : py_gt (getLevel l) (-1) = Ok true).
  { rewrite G; cbn [py_gt]; f_equal; apply Z.ltb_lt; lia. }
  unfold section_fuel; rewrite Nat.add_comm; cbn [Nat.add examinedSection].
  exists l; split; [reflexivity |]; split; [exact P |]; split; [lia |].
  cbn [examinedLoop st_curlevel st_idx].
  split; [exact P |]; split; [lia | left; reflexivity].
Qed.

(** C7: an input with a checkbox line (a line whose stripped form starts
    with [[]) is never converted: [main] raises and returns no output
    document.  When the section processor examines the checkbox line, the
    run stops there with [SystemExit] and the message of the source, which
    reaches the top through every enclosing loop and call. *)
Theorem checkbox_hard_stop (lines : list string) (i : nat) (l : string) :
  nth_error lines i = Some l -> startswith (strip l) "[" = true ->
  (exists e, main lines = Raise e)
  /\ (examinedSection (section_fuel lines) 0 lines (-1) (Z.of_nat i) ->
      main lines = Raise (SystemExit checkbox_message)).
Proof.
  intros H W; split.
  - destruct (main lines) as [out | e |] eqn:M; [| eauto |].
    + pose proof (converted_no_checkbox lines out M l (nth_error_In _ _ H)).
      congruence.
    + destruct (main_fuel lines M).
  - intros X; unfold main.
    assert (P : py_index lines (Z.of_nat i) = Ok l)
      by (apply nth_py_index; [lia | rewrite Nat2Z.id; exact H]).
    rewrite (proj1 (examined_checkbox lines _ l P W _) 0 (-1) X).
    reflexivity.
Qed.

Lemma checkbox_hard_stop_witness :
  let lines := [ln 0 "A"; ln 1 ":text"; ln 1 "B"; ln 2 "[_] task"; ln 0 "C"] in
  examinedSection (section_fuel lines) 0 lines (-1) 3
  /\ main lines = Raise (SystemExit checkbox_message).
Proof.
  intros lines.
  assert (X : examinedSection (section_fuel lines) 0 lines (-1) 3).
  { exists (ln 0 "A"); do 2 (split; [reflexivity |]).
    split; [vm_compute; discriminate |].
    split; [reflexivity |]; split; [vm_compute; discriminate |].
    right; exists (ln 0 "A"), "A"%char; do 2 (split; [reflexivity |]).
    left; exists 0; do 2 (split; [reflexivity |]).
    exists (ln 1 ":text"); do 2 (split; [reflexivity |]).
    split; [vm_compute; discriminate |].
    split; [reflexivity |]; split; [vm_compute; discriminate |].
    right; exists (ln 1 ":text"), ":"%char; do 2 (split; [reflexivity |]).
    right; eexists; exists 2, (ln 1 "B").
    split; [vm_compute; reflexivity |]; split; [reflexivity |].
    split; [reflexivity |]; split; [vm_compute; discriminate |].
    right; exists (ln 1 "B"), "B"%char; do 2 (split; [reflexivity |]).
    left; exists 1; do 2 (split; [reflexivity |]).
    exists (ln 2 "[_] task"); do 2 (split; [reflexivity |]).
    split; [vm_compute; discriminate |].
    split; [reflexivity |]; split; [vm_compute; discriminate |].
    left; reflexivity. }
  split; [exact X |].
  exact (proj2 (checkbox_hard_stop lines 3 (ln 2 "[_] task") eq_refl eq_refl)
           X).
Defined.
(** ** Inputs of structural lines only *)

Lemma structural_line_strip (l : string) :
  structural_line l = true ->
  exists c r, strip l = String c r /\ is_structural c = true.
Proof.
  unfold structural_line; destruct (strip l) as [| c r]; [discriminate | eauto].
Qed.

Lemma structural_line_nonblank (l : string) :
  structural_line l = true -> nonblank l = true.
Proof.
  intros S; destruct (structural_line_strip l S) as (c & r & E & _).
  unfold nonblank; rewrite E; reflexivity.
Qed.

Lemma structural_line_level (l : string) :
  structural_line l = true -> getLevel l = Some (depth l) /\ 0 <= depth l.
Proof. intros S; apply nonblank_depth, structural_line_nonblank, S. Qed.

Lemma processSection_more (lines : list string) (fuel fuel' : nat)
    (idx level : Z) (r : list string * Z * bool) :
  processSection fuel idx lines level = Ok r -> (fuel <= fuel')%nat ->
  processSection fuel' idx lines level = Ok r.
Proof.
  intros E L; destruct (proj1 (fuel_mono lines _ _ L) idx level) as [F | F];
    congruence.
Qed.

Lemma sectionLoop_more (lines : list string) (fuel fuel' : nat)
    (level : Z) (st st' : state) :
  sectionLoop fuel lines level st = Ok st' -> (fuel <= fuel')%nat ->
  sectionLoop fuel' lines level st = Ok st'.
Proof.
  intros E L; destruct (proj2 (fuel_mono lines _ _ L) level st) as [F | F];
    congruence.
Qed.




Section StructuralLines.

Variable lines : list string.
Hypothesis all_structural : Forall (fun l => structural_line l = true) lines.

Lemma line_split (pre rest : list string) (l : string) :
  lines = pre ++ l :: rest ->
  py_index lines (Z.of_nat (List.length pre)) = Ok l.
Proof.
  intros E; apply nth_py_index; [lia |].
  rewrite Nat2Z.id, E, nth_error_app2, Nat.sub_diag by lia; reflexivity.
Qed.







End StructuralLines.

Section StructuralForest.

Variable lines : list string.
Hypothesis all_structural : Forall (fun l => structural_line l = true) lines.




End StructuralForest.

(** *** The indentation tree of an input *)








(** ** Runs of content block lines *)

Lemma run_skip (marker : string) (rest : list string) (i : Z) :
  0 <= i ->
  run_lines marker rest
  = (if scan i rest <? 0 then []
     else run_lines marker (skipn (Z.to_nat (scan i rest - i)) rest))
  /\ run_end marker i rest
     = (if scan i rest <? 0 then -1
        else run_end marker (scan i rest)
               (skipn (Z.to_nat (scan i rest - i)) rest)).
Proof.
  revert i; induction rest as [| l rest IH]; intros i I; [split; reflexivity |].
  cbn [scan]; destruct (nonblank l) eqn:N.
  - destruct (i <? 0) eqn:C; [apply Z.ltb_lt in C; lia |].
    replace (i - i) with 0 by lia; split; reflexivity.
  - cbn [run_lines run_end]; rewrite (blank_strip l N).
    destruct (IH (i + 1) ltac:(lia)) as [E1 E2]; rewrite E1, E2.
    destruct (scan_spec rest (i + 1) ltac:(lia)) as [[E _] | (k & l1 & E & _)];
      rewrite E; [split; reflexivity |].
    destruct (i + 1 + Z.of_nat k <? 0) eqn:C; [split; reflexivity |].
    replace (Z.to_nat (i + 1 + Z.of_nat k - i))
      with (S (Z.to_nat (i + 1 + Z.of_nat k - (i + 1)))) by lia.
    split; reflexivity.
Qed.

Lemma run_next (marker : string) (lines : list string) (idx : Z) :
  0 <= idx ->
  run_lines marker (from lines (idx + 1))
  = (if nextIdx idx lines <? 0 then []
     else run_lines marker (from lines (nextIdx idx lines)))
  /\ run_end marker (idx + 1) (from lines (idx + 1))
     = (if nextIdx idx lines <? 0 then -1
        else run_end marker (nextIdx idx lines)
               (from lines (nextIdx idx lines))).
Proof.
  intros I; destruct (run_skip marker (from lines (idx + 1)) (idx + 1)
                        ltac:(lia)) as [E1 E2].
  rewrite E1, E2; unfold nextIdx.
  destruct (idx <? 0) eqn:N; [apply Z.ltb_lt in N; lia |].
  fold (from lines (idx + 1)).
  destruct (scan_spec (from lines (idx + 1)) (idx + 1) ltac:(lia))
    as [[E _] | (k & l & E & _)]; rewrite E; [split; reflexivity |].
  destruct (idx + 1 + Z.of_nat k <? 0); [split; reflexivity |].
  rewrite <- from_shift by lia; split; reflexivity.
Qed.

(** The shared loop when the emitter succeeds on the lines of the run: it
    appends the lines emitted for the run and stops behind it. *)
Lemma block_loop_run (marker : string)
    (emit : string -> result (list string)) (f : string -> list string)
    (lines : list string) (fuel : nat) :
  forall out idx l,
    0 <= idx -> nth_error lines (Z.to_nat idx) = Some l -> nonblank l = true ->
    (forall l', In l' (run_lines marker (from lines idx)) ->
       emit l' = Ok (f l')) ->
    block_loop fuel marker emit lines out idx = OutOfFuel
    \/ block_loop fuel marker emit lines out idx
       = Ok (out ++ flat_map f (run_lines marker (from lines idx)),
             run_end marker idx (from lines idx)).
Proof.
  induction fuel as [| fuel IH]; intros out idx l I H N Em; [left; reflexivity |].
  cbn [block_loop].
  replace (0 <=? idx) with true by (symmetry; apply Z.leb_le, I).
  rewrite (nth_py_index lines idx l I H); cbn [bind].
  rewrite (from_cons lines idx l I H) in *; cbn [run_lines run_end] in *.
  destruct (nonblank_strip l N) as (c & r & S); rewrite S in *; rewrite <- S in *.
  destruct (startswith (strip l) marker).
  - rewrite (Em l (or_introl eq_refl)); cbn [bind flat_map].
    destruct (run_next marker lines idx I) as [E1 E2].
    rewrite E1, E2 in *.
    destruct (nextIdx_spec lines idx I) as [[E _] | (l1 & G & H1 & N1 & _)].
    + rewrite E; destruct fuel; [left; reflexivity | right].
      cbn; rewrite app_nil_r; reflexivity.
    + replace (nextIdx idx lines <? 0) with false in *
        by (symmetry; apply Z.ltb_ge; lia).
      destruct (IH (out ++ f l) (nextIdx idx lines) l1 ltac:(lia) H1 N1)
        as [E | E]; [intros l' Hin; apply Em; right; exact Hin
                    | left; exact E | right].
      rewrite E, <- app_assoc; reflexivity.
  - right; cbn [flat_map]; rewrite app_nil_r; reflexivity.
Qed.

(** The shared loop when the emitter fails on a line of the run, with the
    one error it can raise. *)
Lemma block_loop_raise (marker : string)
    (emit : string -> result (list string)) (e : exn)
    (lines : list string) (fuel : nat) :
  forall out idx l,
    0 <= idx -> nth_error lines (Z.to_nat idx) = Some l -> nonblank l = true ->
    (forall l', In l' (run_lines marker (from lines idx)) ->
       emit l' = Raise e \/ exists new, emit l' = Ok new) ->
    (exists l', In l' (run_lines marker (from lines idx))
       /\ emit l' = Raise e) ->
    block_loop fuel marker emit lines out idx = OutOfFuel
    \/ block_loop fuel marker emit lines out idx = Raise e.
Proof.
  induction fuel as [| fuel IH]; intros out idx l I H N Em Bad;
    [left; reflexivity |].
  cbn [block_loop].
  replace (0 <=? idx) with true by (symmetry; apply Z.leb_le, I).
  rewrite (nth_py_index lines idx l I H); cbn [bind].
  rewrite (from_cons lines idx l I H) in *; cbn [run_lines run_end] in *.
  destruct (nonblank_strip l N) as (c & r & S); rewrite S in *; rewrite <- S in *.
  destruct (startswith (strip l) marker);
    [| destruct Bad as (l' & [] & _)].
  destruct (Em l (or_introl eq_refl)) as [E | [new E]]; rewrite E; cbn [bind];
    [right; reflexivity |].
  destruct Bad as (l' & [<- | Hin] & B); [congruence |].
  destruct (run_next marker lines idx I) as [E1 _]; rewrite E1 in *.
  destruct (nextIdx_spec lines idx I) as [[E0 _] | (l1 & G & H1 & N1 & _)].
  - rewrite E0 in Hin; destruct Hin.
  - replace (nextIdx idx lines <? 0) with false in *
      by (symmetry; apply Z.ltb_ge; lia).
    apply (IH (out ++ new) (nextIdx idx lines) l1 ltac:(lia) H1 N1).
    + intros l2 H2; apply Em; right; exact H2.
    + exists l'; auto.
Qed.

Lemma flat_map_single {A B : Type} (g : A -> B) (xs : list A) :
  flat_map (fun x => [g x]) xs = map g xs.
Proof. induction xs as [| x xs IH]; cbn; [| rewrite IH]; reflexivity. Qed.

Lemma block_fuel_run (marker : string) (emit : string -> result (list string))
    (lines : list string) (out : list string) (idx : Z) :
  (forall l, emit l <> OutOfFuel) ->
  block_loop (block_fuel lines) marker emit lines out idx <> OutOfFuel.
Proof.
  intros Em; apply block_loop_fuel; [exact Em | unfold block_fuel; lia |].
  unfold block_fuel; destruct (Z_lt_le_dec idx 0); [left | right]; lia.
Qed.

(** The shared loop with an emitter of one line per line. *)
Lemma block_loop_lines (marker : string) (g : string -> string)
    (opening : list string) (lines : list string) (idx : Z) (l : string) :
  0 <= idx -> nth_error lines (Z.to_nat idx) = Some l -> nonblank l = true ->
  block_loop (block_fuel lines) marker (fun l => Ok [g l]) lines opening idx
  = Ok (opening ++ map g (run_lines marker (from lines idx)),
        run_end marker idx (from lines idx)).
Proof.
  intros I H N.
  destruct (block_loop_run marker (fun l => Ok [g l]) (fun l => [g l]) lines
              (block_fuel lines) opening idx l I H N
              ltac:(intros; reflexivity))
    as [E | E].
  - destruct (block_fuel_run marker (fun l => Ok [g l]) lines opening idx
                ltac:(intros; discriminate) E).
  - rewrite E, flat_map_single; reflexivity.
Qed.

Lemma tableRow_cases (l : string) :
  startswith (strip l) "|" = true ->
  (strip l = "|" /\ tableRow l = Raise IndexError)
  \/ (strip l <> "|" /\ tableRow l = Ok (table_lines l)).
Proof.
  unfold tableRow, table_lines, str_at.
  destruct (strip l) as [| a [| b r]]; cbn; [discriminate | |].
  - rewrite andb_true_r; intros E; apply Ascii.eqb_eq in E; subst a.
    left; split; reflexivity.
  - rewrite andb_true_r; intros E; rewrite E; cbn.
    right; split; [discriminate |].
    destruct r; rewrite ?andb_true_r; destruct (Ascii.eqb b "|"); reflexivity.
Qed.

Lemma run_lines_start (marker : string) (rest : list string) (l : string) :
  In l (run_lines marker rest) -> startswith (strip l) marker = true.
Proof.
  induction rest as [| l0 rest IH]; cbn [run_lines]; [intros [] |].
  destruct (strip l0) eqn:S; [exact IH |].
  rewrite <- S; destruct (startswith (strip l0) marker) eqn:W; [| intros []].
  intros [<- | Hin]; [exact W | exact (IH Hin)].
Qed.

Lemma tableRow_fuel (l : string) : tableRow l <> OutOfFuel.
Proof.
  unfold tableRow, str_at.
  destruct (String.get 1 (strip l)) as [c |]; cbn [bind];
    [destruct (Ascii.eqb c "|") |]; discriminate.
Qed.

(** ** Scenario A: a single structural line *)

(** C5 (as stated, refuted): the single line [\tHello] is not converted
    into the heading [##Hello]. *)
Lemma scenario_A_not_heading :
  main [String tab "Hello"] <> Ok ["##Hello"].
Proof. vm_compute; discriminate. Qed.

(** C5 (amended): for the input consisting of the single line [\tHello],
    with or without its line terminator, the converter outputs the bullet
    line [* Hello] followed by one line of four spaces, the indented blank
    line of the empty sub-section. *)
Theorem scenario_A_bullet :
  main [String tab "Hello"] = Ok ["* Hello"; "    "]
  /\ main [ln 1 "Hello"] = Ok ["* Hello"; "    "].
Proof. split; vm_compute; reflexivity. Qed.

(** ** Table header rows *)

Lemma sub_nonpipe_length (s : string) :
  String.length (sub_nonpipe s) = String.length s.
Proof. induction s as [| c s IH]; simpl; [reflexivity | now rewrite IH]. Qed.

Lemma sub_nonpipe_get (s : string) (n : nat) (c : ascii) :
  String.get n s = Some c ->
  String.get n (sub_nonpipe s)
  = Some (if Ascii.eqb c "|" then "|" else "-")%char.
Proof.
  revert n; induction s as [| a s IH]; intros n; simpl; [discriminate |].
  destruct n as [| n]; [intros E; injection E as ->; reflexivity | apply IH].
Qed.

Lemma startswith_pipes (s : string) :
  startswith s "||" = true ->
  exists r, s = String "|" (String "|" r).
Proof.
  destruct s as [| a [| b r]]; simpl; try discriminate.
  - rewrite andb_false_r; discriminate.
  - rewrite andb_true_r; intros E; apply andb_prop in E as [A B].
    apply Ascii.eqb_eq in A, B; subst; eauto.
Qed.

(** C6: a table line whose stripped form begins with [||] makes
    [processTable] emit exactly two lines.  When [processTable] is called
    at a line that is not blank and [row] is a row of the run of table
    lines it consumes (the rows [before] it and [after] it in the run
    being any rows but the single character [|], on which [line[1]]
    fails), the output is the lines of the rows before, then for [row]
    the stripped line with its first two characters replaced by [| ]
    followed by that line with every character but the pipe replaced by a
    dash (same length, pipes at the same places), then the lines of the
    rows after and the closing blank line.  The two lines are what the
    body of the loop returns for the row. *)
Theorem table_header_row (lines : list string) (idx : Z) (l : string)
    (before after : list string) (row : string) :
  0 <= idx -> nth_error lines (Z.to_nat idx) = Some l -> nonblank l = true ->
  run_lines "|" (from lines idx) = before ++ row :: after ->
  (forall r, In r (before ++ after) -> strip r <> "|") ->
  startswith (strip row) "||" = true ->
  let header := "| " +++ str_from 2 (strip row) in
  processTable idx lines
  = Ok (flat_map table_lines before ++ [header; sub_nonpipe header]
        ++ flat_map table_lines after ++ [""],
        run_end "|" idx (from lines idx))
  /\ tableRow row = Ok [header; sub_nonpipe header]
  /\ String.length (sub_nonpipe header) = String.length header
  /\ (forall n c, String.get n header = Some c ->
        String.get n (sub_nonpipe header)
        = Some (if Ascii.eqb c "|" then "|" else "-")%char).
Proof.
  intros I H N Run Good P header.
  destruct (startswith_pipes _ P) as [r E].
  assert (T : tableRow row = Ok [header; sub_nonpipe header]).
  { unfold tableRow, header; rewrite E; reflexivity. }
  assert (TL : table_lines row = [header; sub_nonpipe header]).
  { unfold table_lines, header; rewrite P; reflexivity. }
  split; [| split; [exact T |];
            split; [apply sub_nonpipe_length
                   | intros n c; apply sub_nonpipe_get]].
  unfold processTable.
  destruct (block_loop_run "|" tableRow table_lines lines (block_fuel lines)
              [] idx l I H N) as [F | F].
  - intros l' H'.
    destruct (tableRow_cases l' (run_lines_start _ _ _ H')) as [[S _] | [_ R]];
      [| exact R].
    rewrite Run in H'; apply in_app_or in H' as [B | [<- | A]].
    + destruct (Good l' (in_or_app _ _ _ (or_introl B)) S).
    + rewrite E in S; discriminate.
    + destruct (Good l' (in_or_app _ _ _ (or_intror A)) S).
  - destruct (block_fuel_run "|" tableRow lines [] idx tableRow_fuel F).
  - rewrite F, Run; cbn [bind app].
    rewrite flat_map_app; cbn [flat_map]; rewrite TL, <- !app_assoc.
    reflexivity.
Qed.

Lemma table_header_row_witness :
  let lines := [ln 0 "| x | y |"; ln 1 "|| a | b |"; ln 0 ""; ln 1 "| 1 | 2 |";
                ln 0 "next"] in
  run_lines "|" (from lines 0)
  = [ln 0 "| x | y |"] ++ ln 1 "|| a | b |" :: [ln 1 "| 1 | 2 |"]
  /\ processTable 0 lines
     = Ok (["| x | y |"; "|  a | b |"; "|----|---|"; "| 1 | 2 |"; ""], 4).
Proof.
  intros lines; split; [reflexivity |].
  apply (proj1 (table_header_row lines 0 (ln 0 "| x | y |")
                  [ln 0 "| x | y |"] [ln 1 "| 1 | 2 |"] (ln 1 "|| a | b |")
                  ltac:(lia) eq_refl eq_refl eq_refl
                  ltac:(intros r [<- | [<- | []]]; discriminate) eq_refl)).
Defined.

(** ** Empty input *)

(** No input without a line that is not blank is converted: [main] raises
    on every one of them. *)
Lemma blank_input_raises (lines : list string) :
  (forall l, In l lines -> nonblank l = false) ->
  exists e, main lines = Raise e.
Proof.
  intros B; destruct (main lines) as [out | e |] eqn:M; [| eauto |].
  - unfold main in M; apply bind_Ok in M as ([[o stop] fl] & E & _).
    destruct lines as [| l rest].
    + destruct (section_fuel []); discriminate E.
    + destruct (blank_first_line (l :: rest) l _ _ eq_refl
                  (B l (or_introl eq_refl)) E).
  - destruct (main_fuel lines M).
Qed.

(** C8 (the code departs from it): [main] raises [IndexError] on the input
    with no line ([lines[0]]) and on the input whose only line is blank
    ([curline.strip()[0]]); neither yields the single blank output line. *)
Theorem empty_input_raises :
  main [] = Raise IndexError
  /\ main [String newline EmptyString] = Raise IndexError.
Proof. split; reflexivity. Qed.

(** ** Lines made of tabs only *)

Lemma all_tabs_getLevel_from (n : Z) (l : string) :
  all_tabs l = true -> getLevel_from n l = None.
Proof.
  revert n; induction l as [| c r IH]; intros n; simpl; [reflexivity |].
  intros A; apply andb_prop in A as [C R]; rewrite C; apply IH, R.
Qed.

(** C10: when the line [processSection] examines consists of tab characters
    only, [getLevel] returns [None] and the depth comparison raises
    [TypeError], at the entry of [processSection] (lines 138-139) and at the
    loop test that follows [curlevel = getLevel(lines[nidx])] (line 219);
    no output sequence is returned. *)
Theorem tabs_only_line_raises (lines : list string) (idx level : Z)
    (l : string) (fuel : nat) :
  py_index lines idx = Ok l ->
  all_tabs l = true ->
  getLevel l = None
  /\ processSection (S fuel) idx lines level = Raise TypeError
  /\ processSection (section_fuel lines) idx lines level = Raise TypeError
  /\ (forall st, st_curlevel st = getLevel l ->
        sectionLoop (S fuel) lines level st = Raise TypeError).
Proof.
  intros I A.
  assert (G : getLevel l = None) by (apply all_tabs_getLevel_from, A).
  split; [exact G |].
  assert (P : forall f, processSection (S f) idx lines level = Raise TypeError).
  { intros f; simpl; rewrite I; simpl; rewrite G; reflexivity. }
  split; [apply P |].
  split; [unfold section_fuel; rewrite Nat.add_comm; apply P |].
  intros st C; simpl; rewrite C, G; reflexivity.
Qed.

Lemma tabs_only_line_raises_witness :
  processSection (section_fuel [ln 0 "A"; tabs 1]) (-1) [ln 0 "A"; tabs 1] 0
  = Raise TypeError
  /\ main [ln 0 "A"; tabs 1] = Raise TypeError.
Proof.
  split; [| reflexivity].
  exact (proj1 (proj2 (proj2
    (tabs_only_line_raises [ln 0 "A"; tabs 1] (-1) 0 (tabs 1) 0
       eq_refl eq_refl)))).
Defined.

(** ** The collapsible flag and the first child *)

(** Once false, [isList] stays false to the end of the loop. *)
Lemma isList_stays_false (lines : list string) (fuel : nat) :
  forall level st st',
    sectionLoop fuel lines level st = Ok st' ->
    st_isList st = false -> st_isList st' = false.
Proof.
  induction fuel as [| fuel IH]; intros level st st' E F; [discriminate |].
  cbn [sectionLoop] in E.
  apply bind_Ok in E as (deeper & _ & E).
  destruct (deeper && (0 <=? st_idx st)); [| injection E as <-; exact F].
  apply bind_Ok in E as (curline & _ & E).
  apply bind_Ok in E as (start & _ & E).
  apply bind_Ok in E as ([st1 nidx] & Dis & E).
  apply bind_Ok in E as (l & _ & E).
  apply (IH _ _ _ E); cbn [st_isList].
  unfold dispatch in Dis.
  repeat match type of Dis with
         | (if ?b then _ else _) = _ =>
             destruct b;
             [first [apply contentBranch_Ok in Dis as [Dis _]; exact Dis
                    | discriminate Dis] |]
         end.
  destruct (st_curlevel st); [| discriminate].
  apply bind_Ok in Dis as ([[secout n] fl] & _ & Dis); injection Dis as <- _.
  unfold addItem; destruct (st_firstItem st); [exact F |].
  destruct (negb fl); [reflexivity | exact F].
Qed.

(** A child that is not the first pending item of its group and reports
    [false] makes [isList] false; the first one does not. *)
Lemma addItem_isList (curline : string) (secout : list string) (st : state) :
  st_isList (addItem curline secout false st)
  = (if st_firstItem st then st_isList st else false).
Proof. unfold addItem; destruct (st_firstItem st); reflexivity. Qed.

(** C3 (the code departs from it): in [A], [\tB], [\t\t:text] the only leaf
    subtree holds a content block, yet [A] is rendered as a bullet and the
    heading of [B] is indented inside it.  The group of [B] seeds [makeList]
    from its first child and leaves [isList] true. *)
Theorem nested_content_rendered_as_list :
  main [ln 0 "A"; ln 1 "B"; ln 2 ":text"]
  = Ok ["* A"; "    ##B"; "    "; "    text"; "    "].
Proof. reflexivity. Qed.

(** C4 (the code departs from it): on the same input the section below [B]
    reports [collapsible = false], and the group of [B], whose first child
    it is, still returns [collapsible = true]. *)
Theorem first_child_flag_dropped :
  let lines := [ln 0 "A"; ln 1 "B"; ln 2 ":text"] in
  processSection (section_fuel lines) 2 lines 1
  = Ok ([""; "text"; ""], -1, false)
  /\ processSection (section_fuel lines) 1 lines 0
     = Ok (["##B"; ""; "text"; ""], -1, true).
Proof. split; reflexivity. Qed.

(** ** The flush in the middle of a group *)

(** [renderHeaders] applied to the output of [renderList] fails on the
    first bullet line, which has more than two characters. *)
Lemma renderHeaders_renderList_raises (line : string) (content : list string)
    (rest : list item) :
  nonblank line = true ->
  renderHeaders (renderList ((line, content) :: rest)) = Raise ValueError.
Proof.
  unfold nonblank; simpl; destruct (strip line); [discriminate | reflexivity].
Qed.

(** C9 (the code departs from it): the flush in the middle of a group whose
    mode is not collapsible passes the bullet lines of [renderList] to
    [renderHeaders], which cannot unpack them: the flush raises [ValueError]
    and the conversion stops without output.  The flush at the end of the
    same pending items renders them as headings. *)
Theorem mid_group_flush_raises :
  let pending := mkState [] true false false [(ln 0 "A", [""; "x"; ""])]
                   (Some 0) 2 in
  main [ln 0 "A"; ln 1 ":x"; ln 0 ">y"] = Raise ValueError
  /\ flushPending pending = Raise ValueError
  /\ finalFlush pending = Ok ["#A"; ""; "x"; ""].
Proof. intros pending; split; [| split]; reflexivity. Qed.
(** * Further properties of the converter *)

(** ** Content block processors on their runs *)

(** X1: the four text processors.  Called at a line that is not blank,
    each returns its frame around one output line per line of the run of
    its marker (the lines, blank ones skipped, up to the first that does
    not start with the marker), and the position of the line that ends the
    run, [-1] at the end of the input.  None of them fails. *)
Theorem text_processors_run (lines : list string) (idx : Z) (l : string) :
  0 <= idx -> nth_error lines (Z.to_nat idx) = Some l -> nonblank l = true ->
  processBodyText idx lines
  = Ok ("" :: map (fun l => strip (str_from 1 (strip l)))
                (run_lines ":" (from lines idx)) ++ [""],
        run_end ":" idx (from lines idx))
  /\ processBodyPreText idx lines
     = Ok ("" :: map (fun l => "| " +++ strip (str_from 1 (strip l)))
                   (run_lines ";" (from lines idx)) ++ [""],
           run_end ";" idx (from lines idx))
  /\ processUserText idx lines
     = Ok (map strip (run_lines ">" (from lines idx)) ++ [""],
           run_end ">" idx (from lines idx))
  /\ processUserPreText idx lines
     = Ok ("~~~" :: map (fun l => str_from 1 (strip l))
                      (run_lines "<" (from lines idx)) ++ ["~~~"],
           run_end "<" idx (from lines idx)).
Proof.
  intros I H N.
  unfold processBodyText, processBodyPreText, processUserText,
    processUserPreText.
  rewrite !(block_loop_lines _ _ _ lines idx l I H N); cbn [bind app].
  repeat split; reflexivity.
Qed.

Lemma text_processors_run_witness :
  let lines := [ln 1 ": one"; ln 0 ""; ln 2 ":two "; ln 1 "> quote"] in
  processBodyText 0 lines = Ok ([""; "one"; "two"; ""], 3).
Proof.
  intros lines.
  exact (proj1 (text_processors_run lines 0 (ln 1 ": one")
                  ltac:(lia) eq_refl eq_refl)).
Defined.

(** X2: the table processor.  Called at a line that is not blank, it fails
    with [IndexError] as soon as a row of the run consists of the single
    character [|] ([line[1]] does not exist); otherwise it returns, for
    each row of the run, the header pair of a [||] row or the stripped row
    itself, then a blank line, and the position of the line that ends the
    run. *)
Theorem table_processor_run (lines : list string) (idx : Z) (l : string) :
  0 <= idx -> nth_error lines (Z.to_nat idx) = Some l -> nonblank l = true ->
  ((exists row, In row (run_lines "|" (from lines idx)) /\ strip row = "|") ->
   processTable idx lines = Raise IndexError)
  /\ ((forall row, In row (run_lines "|" (from lines idx)) ->
         strip row <> "|") ->
      processTable idx lines
      = Ok (flat_map table_lines (run_lines "|" (from lines idx)) ++ [""],
            run_end "|" idx (from lines idx))).
Proof.
  intros I H N; unfold processTable.
  pose proof (block_fuel_run "|" tableRow lines [] idx tableRow_fuel) as F.
  split.
  - intros (row & Hin & S).
    destruct (block_loop_raise "|" tableRow IndexError lines
                (block_fuel lines) [] idx l I H N) as [E | E];
      [| | contradiction | rewrite E; reflexivity].
    + intros l' H'.
      destruct (tableRow_cases l' (run_lines_start _ _ _ H'))
        as [[_ E] | [_ E]]; [left | right; eexists]; exact E.
    + exists row; split; [exact Hin |].
      destruct (tableRow_cases row (run_lines_start _ _ _ Hin))
        as [[_ E] | [Ne _]]; [exact E | contradiction].
  - intros Good.
    destruct (block_loop_run "|" tableRow table_lines lines
                (block_fuel lines) [] idx l I H N) as [E | E];
      [| contradiction | rewrite E; reflexivity].
    intros l' H'.
    destruct (tableRow_cases l' (run_lines_start _ _ _ H'))
      as [[S _] | [_ E]]; [destruct (Good l' H' S) | exact E].
Qed.

Lemma table_processor_run_witness :
  let lines := [ln 1 "|| a | b |"; ln 1 "| 1 | 2 |"; ln 0 "next"] in
  processTable 0 lines
  = Ok (["|  a | b |"; "|----|---|"; "| 1 | 2 |"; ""], 2)
  /\ processTable 0 [ln 1 "| x |"; ln 1 "|"] = Raise IndexError.
Proof.
  intros lines; split.
  - apply (proj2 (table_processor_run lines 0 (ln 1 "|| a | b |")
                    ltac:(lia) eq_refl eq_refl)).
    intros row [<- | [<- | []]]; discriminate.
  - apply (proj1 (table_processor_run [ln 1 "| x |"; ln 1 "|"] 0 (ln 1 "| x |")
                    ltac:(lia) eq_refl eq_refl)).
    exists (ln 1 "|"); split; [right; left; reflexivity | reflexivity].
Defined.

(** ** The navigator and the line classifier *)

(** X3: [nextIdx] leaves the end sentinel (any negative index) unchanged;
    from a position it returns the position of the next line that is not
    blank, every line in between being blank, or [-1] when all the lines
    that follow are blank (or there is none). *)
Theorem nextIdx_next_nonblank (lines : list string) (idx : Z) :
  (idx < 0 /\ nextIdx idx lines = idx)
  \/ (0 <= idx /\ nextIdx idx lines = -1
      /\ forall j l, idx < j -> nth_error lines (Z.to_nat j) = Some l ->
           nonblank l = false)
  \/ (0 <= idx /\ idx < nextIdx idx lines < Z.of_nat (List.length lines)
      /\ (exists l, nth_error lines (Z.to_nat (nextIdx idx lines)) = Some l
            /\ nonblank l = true)
      /\ forall j l, idx < j < nextIdx idx lines ->
           nth_error lines (Z.to_nat j) = Some l -> nonblank l = false).
Proof.
  destruct (Z_lt_le_dec idx 0) as [Lt | Ge];
    [left; split; [exact Lt | apply nextIdx_neg, Lt] | right].
  destruct (nextIdx_spec lines idx Ge) as [[E B] | (l & G & H & N & B)];
    [left; auto | right].
  repeat split; try assumption; [| exists l; auto].
  assert ((Z.to_nat (nextIdx idx lines) < List.length lines)%nat)
    by (apply nth_error_Some; rewrite H; discriminate).
  lia.
Qed.

Lemma getLevel_from_tabs (n : nat) (count : Z) (c : ascii) (r : string) :
  c <> tab ->
  getLevel_from count (tabs n +++ String c r) = Some (count + Z.of_nat n).
Proof.
  intros C; revert count; induction n as [| n IH]; intros count.
  - cbn [tabs replicate String.append getLevel_from].
    apply Ascii.eqb_neq in C; rewrite C; f_equal; lia.
  - cbn [tabs replicate String.append getLevel_from].
    rewrite Ascii.eqb_refl; fold (tabs n); rewrite IH; f_equal; lia.
Qed.

Lemma getLevel_from_split (l : string) (count d : Z) :
  getLevel_from count l = Some d ->
  exists n c r, l = tabs n +++ String c r /\ c <> tab
    /\ d = count + Z.of_nat n.
Proof.
  revert count; induction l as [| a l IH]; intros count; cbn [getLevel_from];
    [discriminate |].
  destruct (Ascii.eqb a tab) eqn:A.
  - intros E; destruct (IH _ E) as (n & c & r & -> & C & ->).
    apply Ascii.eqb_eq in A; subst a.
    exists (S n), c, r; repeat split; [exact C | lia].
  - intros E; injection E as <-; apply Ascii.eqb_neq in A.
    exists O, a, l; repeat split; [exact A | lia].
Qed.

Lemma getLevel_None_all_tabs (l : string) :
  getLevel l = None <-> all_tabs l = true.
Proof.
  split; [| apply all_tabs_getLevel_from].
  unfold getLevel; generalize 0.
  induction l as [| a l IH]; intros count;
    cbn [getLevel_from all_tabs]; [reflexivity |].
  destruct (Ascii.eqb a tab); [apply IH | discriminate].
Qed.

(** X4: [getLevel] counts the tabs in front of the first other character:
    it returns [n] exactly on the lines made of [n] tabs followed by a
    character that is not a tab, and [None] exactly on the lines made of
    tabs only, the empty line among them. *)
Theorem getLevel_counts_tabs (l : string) :
  (getLevel l = None <-> all_tabs l = true)
  /\ forall d,
       getLevel l = Some d
       <-> exists n c r, l = tabs n +++ String c r /\ c <> tab
             /\ d = Z.of_nat n.
Proof.
  split; [apply getLevel_None_all_tabs |].
  - intros d; split.
    + intros E; destruct (getLevel_from_split l 0 d E) as (n & c & r & H).
      exists n, c, r; exact H.
    + intros (n & c & r & -> & C & ->).
      unfold getLevel; rewrite getLevel_from_tabs by exact C; reflexivity.
Qed.

(** ** Inputs on which the conversion fails or succeeds *)

(** X5: an input whose first line is blank is not converted, whatever
    follows: [main] raises [TypeError] when the line consists of tabs only
    (or is empty) and [IndexError] otherwise. *)
Theorem blank_first_line_raises (l : string) (rest : list string) :
  nonblank l = false ->
  main (l :: rest) = Raise (if all_tabs l then TypeError else IndexError).
Proof.
  intros B; unfold main, section_fuel.
  rewrite Nat.add_comm; cbn [Nat.add processSection py_index].
  replace (py_index (l :: rest) 0) with (@Ok string l) by reflexivity.
  cbn [bind].
  destruct (all_tabs l) eqn:A.
  - rewrite (proj2 (getLevel_None_all_tabs l) A); reflexivity.
  - destruct (getLevel l) as [d |] eqn:G;
      [| apply getLevel_None_all_tabs in G; congruence].
    pose proof (getLevel_from_ge 0 d l G) as D.
    cbn [py_gt bind].
    replace (-1 <? d) with true by (symmetry; apply Z.ltb_lt; lia).
    cbn [andb Z.leb Z.compare sectionLoop st_curlevel st_idx py_gt bind].
    replace (-1 <? d) with true by (symmetry; apply Z.ltb_lt; lia).
    cbn [andb Z.leb Z.compare].
    replace (py_index (l :: rest) 0) with (@Ok string l) by reflexivity.
    cbn [bind]; rewrite (blank_strip l B); reflexivity.
Qed.

Lemma blank_first_line_raises_witness :
  main [ln 1 ""; ln 0 "A"] = Raise IndexError
  /\ main [tabs 2; ln 0 "A"] = Raise TypeError.
Proof.
  split.
  - exact (blank_first_line_raises (ln 1 "") [ln 0 "A"] eq_refl).
  - exact (blank_first_line_raises (tabs 2) [ln 0 "A"] eq_refl).
Defined.

(** X6: the recursion of [processSection] terminates: from any position
    and level the fuel [2 * len(lines) + 2] is not exhausted, and any
    larger fuel gives the same result. *)
Theorem processSection_terminates (lines : list string) (idx level : Z)
    (fuel : nat) :
  (section_fuel lines <= fuel)%nat ->
  processSection (section_fuel lines) idx lines level <> OutOfFuel
  /\ processSection fuel idx lines level
     = processSection (section_fuel lines) idx lines level.
Proof.
  intros L; split; [apply fuel_enough |].
  destruct (proj1 (fuel_mono lines _ _ L) idx level) as [E | E];
    [destruct (fuel_enough lines idx level E) | exact E].
Qed.

Lemma processSection_terminates_witness :
  let lines := [ln 0 "A"; ln 1 "B"] in
  processSection 100 0 lines (-1) = Ok (["* A"; "    * B"; "        "], -1, true).
Proof.
  intros lines.
  rewrite (proj2 (processSection_terminates lines 0 (-1) 100
                    ltac:(vm_compute; lia))).
  reflexivity.
Defined.

(** X7: a conversion that succeeds has read the whole input: the call of
    [main] returns the end sentinel as its stopping position, the first
    line of the input is not blank, and no line is a checkbox line. *)
Theorem success_reads_all (lines : list string) (out : list string)
    (stop : Z) (fl : bool) :
  processSection (section_fuel lines) 0 lines (-1) = Ok (out, stop, fl) ->
  stop = -1
  /\ (exists l rest, lines = l :: rest /\ nonblank l = true)
  /\ forall l, In l lines -> startswith (strip l) "[" = false.
Proof.
  intros E.
  assert (M : main lines = Ok out) by (unfold main; rewrite E; reflexivity).
  destruct lines as [| l0 rest] eqn:Ls; [discriminate E |]; rewrite <- Ls in *.
  assert (H0 : nth_error lines 0 = Some l0) by (rewrite Ls; reflexivity).
  destruct (nonblank l0) eqn:N0;
    [| destruct (blank_first_line lines l0 _ _ H0 N0 E)].
  split; [| split; [exists l0, rest; auto
                   | exact (converted_no_checkbox lines out M)]].
  destruct (proj1 (section_positions lines _) 0 (-1) out stop fl E) as [En _];
    [right; split; [lia | eauto] |].
  rewrite En, sectionEnd_nonneg by lia.
  destruct (stop_scan_range (-1) (from lines 0) 0 None)
    as [S | (k & l' & _ & _ & N' & D')]; [exact S |].
  destruct (nonblank_depth l' N'); lia.
Qed.

Lemma success_reads_all_witness :
  let lines := [ln 0 "A"; ln 1 ":text"; ln 0 ":more"] in
  processSection (section_fuel lines) 0 lines (-1)
  = Ok (["#A"; ""; "text"; "more"; ""], -1, true)
  /\ forall l, In l lines -> startswith (strip l) "[" = false.
Proof.
  intros lines; split; [reflexivity |].
  exact (proj2 (proj2 (success_reads_all lines
                         ["#A"; ""; "text"; "more"; ""] (-1) true eq_refl))).
Defined.

(** X8: without a checkbox line there is no [SystemExit]: whatever else
    goes wrong, [main] does not stop with the checkbox message, nor with
    any other exit. *)
Theorem no_checkbox_no_exit (lines : list string) (message : string) :
  (forall l, In l lines -> startswith (strip l) "[" = false) ->
  main lines <> Raise (SystemExit message).
Proof.
  intros No E.
  destruct (exit_only_at_checkbox lines message E) as (i & l & _ & P & W).
  assert (Hin : In l lines).
  { unfold py_index in P; destruct (_ && _); [| discriminate].
    destruct (nth_error lines _) eqn:H; [| discriminate].
    injection P as <-; exact (nth_error_In _ _ H). }
  rewrite (No l Hin) in W; discriminate.
Qed.

Lemma no_checkbox_no_exit_witness :
  main [ln 0 "A"; ln 1 "|"] <> Raise (SystemExit checkbox_message).
Proof.
  apply no_checkbox_no_exit.
  intros l [<- | [<- | []]]; reflexivity.
Defined.

(** ** The contract when content blocks are indented *)

Lemma stop_scan_first_shallow (level : Z) (rest : list string) :
  (forall l c r, In l rest -> strip l = String c r -> is_content c = true ->
     level < depth l) ->
  forall i run,
    (forall m, run = Some m -> is_content m = true) ->
    stop_scan level i run rest = first_shallow level i rest.
Proof.
  induction rest as [| l rest IH]; intros Deep i run R; [reflexivity |].
  cbn [stop_scan first_shallow]; unfold nonblank.
  assert (Deep' : forall l' c r, In l' rest -> strip l' = String c r ->
                    is_content c = true -> level < depth l')
    by (intros l' c r Hin; apply Deep; right; exact Hin).
  destruct (strip l) as [| c r] eqn:S; [apply IH; assumption |].
  cbn [andb]; destruct (continues run c) eqn:C.
  - destruct run as [m |]; [| discriminate]; cbn [continues] in C.
    apply Ascii.eqb_eq in C; subst m.
    pose proof (Deep l c r (or_introl eq_refl) S (R c eq_refl)) as D.
    replace (depth l <=? level) with false
      by (symmetry; apply Z.leb_gt; exact D).
    apply IH; assumption.
  - destruct (depth l <=? level); [reflexivity |].
    apply IH; [assumption |].
    intros m; destruct (is_content c) eqn:Ic; [| discriminate].
    intros E; injection E as <-; exact Ic.
Qed.

(** X9: when every content block line from [pos] on is deeper than
    [level], a call [processSection(pos, level)] that returns stops at the
    first line, blank lines apart, whose depth is at most [level], or at
    the end of the input: the contract as the section processor words
    it. *)
Theorem indented_content_contract (lines : list string) (pos level : Z)
    (l : string) (out : list string) (stop : Z) (fl : bool) :
  0 <= pos -> nth_error lines (Z.to_nat pos) = Some l -> nonblank l = true ->
  (forall l' c r, In l' (from lines pos) -> strip l' = String c r ->
     is_content c = true -> level < depth l') ->
  processSection (section_fuel lines) pos lines level = Ok (out, stop, fl) ->
  stop = contractEnd pos lines level.
Proof.
  intros P H N Deep E.
  destruct (proj1 (section_positions lines (section_fuel lines))
              pos level out stop fl E) as [En _];
    [right; split; [exact P | eauto] |].
  rewrite En, sectionEnd_nonneg by exact P.
  unfold contractEnd; fold (from lines pos).
  apply stop_scan_first_shallow; [exact Deep | discriminate].
Qed.

Lemma indented_content_contract_witness :
  let lines := [ln 0 "A"; ln 1 ":text"; ln 1 ":more"; ln 0 "B"] in
  3 = contractEnd 1 lines 0.
Proof.
  intros lines.
  apply (indented_content_contract lines 1 0 (ln 1 ":text")
           [""; "text"; "more"; ""] 3 false ltac:(lia) eq_refl eq_refl);
    [| reflexivity].
  intros l' c r [<- | [<- | [<- | []]]] S; vm_compute in S;
    injection S as <- _; vm_compute; intros; try discriminate; reflexivity.
Defined.

(** ** The collapsible flag *)

Lemma dispatch_content_isList
    (recur : Z -> Z -> result (list string * Z * bool))
    (lines : list string) (st st1 : state) (curline : string)
    (start : ascii) (nidx : Z) :
  is_content start = true ->
  dispatch recur lines st curline start = Ok (st1, nidx) ->
  st_isList st1 = false.
Proof.
  unfold is_content, dispatch; intros C.
  repeat match goal with
         | |- (if ?b then _ else _) = _ -> _ =>
             destruct b;
             [intros Dis; apply contentBranch_Ok in Dis as [Dis _]; exact Dis |]
         end.
  discriminate C.
Qed.

(** X10: a section that starts with a content block line is not
    collapsible: when [processSection] is called at such a line, deeper
    than the enclosing level, and returns, the flag it returns is
    false. *)
Theorem content_section_not_collapsible (lines : list string)
    (pos level : Z) (l r : string) (c : ascii) (fuel : nat)
    (out : list string) (stop : Z) (fl : bool) :
  0 <= pos -> nth_error lines (Z.to_nat pos) = Some l ->
  strip l = String c r -> is_content c = true -> level < depth l ->
  processSection fuel pos lines level = Ok (out, stop, fl) ->
  fl = false.
Proof.
  intros P H S C D E.
  assert (N : nonblank l = true) by (unfold nonblank; rewrite S; reflexivity).
  assert (G : py_gt (getLevel l) level = Ok true).
  { destruct (nonblank_depth l N) as [Gl _]; rewrite Gl; cbn [py_gt].
    f_equal; apply Z.ltb_lt; exact D. }
  assert (I : (0 <=? pos) = true) by (apply Z.leb_le; exact P).
  destruct fuel as [| fuel]; [discriminate |].
  cbn [processSection] in E.
  rewrite (nth_py_index lines pos l P H) in E; cbn [bind] in E.
  rewrite G in E; cbn [bind] in E; rewrite I in E; cbn [andb] in E.
  apply bind_Ok in E as (st' & L & E).
  apply bind_Ok in E as (o & _ & E); injection E as _ _ <-.
  destruct fuel as [| fuel]; [discriminate |].
  cbn [sectionLoop st_curlevel st_idx] in L.
  rewrite G in L; cbn [bind] in L; rewrite I in L; cbn [andb] in L.
  rewrite (nth_py_index lines pos l P H) in L; cbn [bind] in L.
  rewrite S in L; cbn [str_at String.get bind] in L.
  apply bind_Ok in L as ([st1 nidx] & Dis & L).
  apply bind_Ok in L as (l1 & _ & L).
  apply (isList_stays_false lines _ _ _ _ L); cbn [st_isList].
  exact (dispatch_content_isList _ lines _ st1 l c nidx C Dis).
Qed.

Lemma content_section_not_collapsible_witness :
  let lines := [ln 0 "A"; ln 1 "> quote"; ln 1 "B"] in
  processSection (section_fuel lines) 1 lines 0
  = Ok (["> quote"; ""; "* B"; "    "], -1, false)
  /\ false = false.
Proof.
  intros lines; split; [reflexivity |].
  exact (content_section_not_collapsible lines 1 0 (ln 1 "> quote")
           " quote" ">" (section_fuel lines) ["> quote"; ""; "* B"; "    "]
           (-1) false ltac:(lia) eq_refl eq_refl eq_refl
           ltac:(vm_compute; reflexivity) eq_refl).
Defined.

(** ** The flush of pending items that are not collapsible *)

Lemma contentBranch_pending_raises
    (process : Z -> list string -> result (list string * Z))
    (lines : list string) (st : state) (line : string)
    (content : list string) (rest : list item) :
  st_firstItem st = false -> st_makeList st = false ->
  st_items st = (line, content) :: rest -> nonblank line = true ->
  contentBranch process lines st = Raise ValueError.
Proof.
  intros F M It N; unfold contentBranch, flushPending.
  cbn [st_firstItem st_makeList st_items]; rewrite F, M, It; cbn [negb].
  rewrite (renderHeaders_renderList_raises line content rest N); reflexivity.
Qed.

(** X11: whenever the loop of [processSection] reaches a content block
    line while items are pending that are not to be rendered as a list,
    the run stops with [ValueError]: the flush hands the bullet lines of
    [renderList] to [renderHeaders], which cannot unpack the first of
    them. *)
Theorem pending_headings_flush_raises (lines : list string) (level : Z)
    (st : state) (l r : string) (c : ascii) (line : string)
    (content : list string) (rest : list item) (fuel : nat) :
  py_gt (st_curlevel st) level = Ok true -> 0 <= st_idx st ->
  py_index lines (st_idx st) = Ok l ->
  strip l = String c r -> is_content c = true ->
  st_firstItem st = false -> st_makeList st = false ->
  st_items st = (line, content) :: rest -> nonblank line = true ->
  sectionLoop (S fuel) lines level st = Raise ValueError.
Proof.
  intros G I P S C F M It N; cbn [sectionLoop].
  rewrite G; cbn [bind].
  replace (0 <=? st_idx st) with true by (symmetry; apply Z.leb_le, I).
  cbn [andb]; rewrite P; cbn [bind]; rewrite S; cbn [str_at String.get bind].
  unfold dispatch, is_content in *.
  repeat match goal with
         | |- context [if ?b then contentBranch ?p _ _ else _] =>
             destruct b;
             [rewrite (contentBranch_pending_raises p lines st line content
                         rest F M It N); reflexivity |]
         end.
  discriminate C.
Qed.

Lemma pending_headings_flush_raises_witness :
  let lines := [ln 0 "A"; ln 1 ":x"; ln 0 ">y"] in
  sectionLoop 5 lines (-1)
    (mkState [] true false false [(ln 0 "A", [""; "x"; ""])] (Some 0) 2)
  = Raise ValueError.
Proof.
  intros lines.
  exact (pending_headings_flush_raises lines (-1)
           (mkState [] true false false [(ln 0 "A", [""; "x"; ""])]
              (Some 0) 2)
           (ln 0 ">y") "y" ">" (ln 0 "A") [""; "x"; ""] [] 4
           eq_refl ltac:(cbn; lia) eq_refl eq_refl eq_refl eq_refl eq_refl
           eq_refl eq_refl).
Defined.

(** ** The two renderers of sibling items *)

(** The heading of a label. *)
Lemma renderHeaders_cons (line : string) (content : list string)
    (rest : list item) :
  renderHeaders ((line, content) :: rest)
  = bind (makeHeader (strip line) (getLevel line))
      (fun h => bind (renderHeaders rest)
                  (fun out => Ok (h :: content ++ out))).
Proof. reflexivity. Qed.

(** X12: the heading renderer.  When every label has a character that is
    not a tab, [renderHeaders] returns, item after item, the stripped
    label behind [depth + 1] characters [#] and the content lines of the
    item as they are; when a label consists of tabs only it raises
    [TypeError]. *)
Theorem renderHeaders_headings (items : list item) :
  (Forall (fun it => getLevel (fst it) <> None) items ->
   renderHeaders items
   = Ok (flat_map
           (fun it =>
              (str_mul (depth (fst it) + 1) "#" +++ strip (fst it))
              :: snd it)
           items))
  /\ (Exists (fun it => getLevel (fst it) = None) items ->
      renderHeaders items = Raise TypeError).
Proof.
  split.
  - induction 1 as [| [line content] rest G _ IH]; [reflexivity |].
    cbn [fst] in G; destruct (getLevel line) as [z |] eqn:Gl; [| congruence].
    rewrite renderHeaders_cons, IH, Gl.
    cbn [makeHeader bind fst snd flat_map app].
    replace (depth line) with z by (unfold depth; rewrite Gl; reflexivity).
    reflexivity.
  - induction 1 as [[line content] rest G | [line content] rest _ IH].
    + rewrite renderHeaders_cons; cbn [fst] in G; rewrite G; reflexivity.
    + rewrite renderHeaders_cons, IH; unfold makeHeader.
      destruct (getLevel line); reflexivity.
Qed.

Lemma renderHeaders_headings_witness :
  renderHeaders [(ln 1 "B", [""; "text"; ""]); (ln 0 "C", [])]
  = Ok ["##B"; ""; "text"; ""; "#C"]
  /\ renderHeaders [(ln 0 "A", []); (tabs 2, [])] = Raise TypeError.
Proof.
  split.
  - apply (proj1 (renderHeaders_headings
                    [(ln 1 "B", [""; "text"; ""]); (ln 0 "C", [])])).
    repeat constructor; discriminate.
  - apply (proj2 (renderHeaders_headings [(ln 0 "A", []); (tabs 2, [])])).
    apply Exists_cons_tl, Exists_cons_hd; reflexivity.
Defined.

(** X13: the list renderer.  [renderList] renders item after item
    (the list of two groups of items is the two lists one after the
    other), and every line it returns is the bullet [* ] of an item in
    front of its stripped label or a content line of an item behind four
    spaces. *)
Theorem renderList_lines (items more : list item) :
  renderList (items ++ more) = renderList items ++ renderList more
  /\ forall line,
       In line (renderList items) <->
       exists label content,
         In (label, content) items
         /\ (line = "* " +++ strip label
             \/ exists c, In c content /\ line = "    " +++ c).
Proof.
  split.
  - induction items as [| [label content] items IH]; [reflexivity |].
    cbn [app renderList]; rewrite IH, <- app_assoc; reflexivity.
  - intros line; induction items as [| [label content] items IH].
    + split; [intros [] | intros (? & ? & [] & _)].
    + cbn [renderList]; split.
      * intros [<- | Hin].
        -- exists label, content; split; [left; reflexivity | left; reflexivity].
        -- apply in_app_or in Hin as [Hin | Hin].
           ++ apply in_map_iff in Hin as (c & <- & Hc).
              exists label, content; split; [left; reflexivity | right; eauto].
           ++ apply IH in Hin as (lb & ct & Hin & Shape).
              exists lb, ct; split; [right; exact Hin | exact Shape].
      * intros (lb & ct & [E | Hin] & Shape).
        -- injection E as -> ->.
           destruct Shape as [-> | (c & Hc & ->)]; [left; reflexivity | right].
           apply in_or_app; left; apply in_map; exact Hc.
        -- right; apply in_or_app; right; apply IH; eauto.
Qed.

(** ** Documents: every heading with its body text *)

Lemma structural_not_body (l : string) :
  structural_line l = true -> startswith (strip l) ":" = false.
Proof.
  intros S; destruct (structural_line_strip l S) as (c & r & -> & I).
  rewrite startswith_head.
  unfold is_structural, is_content in I.
  destruct (Ascii.eqb c ":"); [discriminate | reflexivity].
Qed.

Lemma body_line_strip (b : string) :
  startswith (strip b) ":" = true -> exists r, strip b = String ":" r.
Proof.
  destruct (strip b) as [| c r]; [discriminate |].
  rewrite startswith_head; intros E; apply Ascii.eqb_eq in E; subst c; eauto.
Qed.

Lemma body_line_nonblank (b : string) :
  startswith (strip b) ":" = true -> nonblank b = true.
Proof.
  intros W; destruct (body_line_strip b W) as [r S].
  unfold nonblank; rewrite S; reflexivity.
Qed.

(** A run that is spelled out: lines that start with the marker, then a
    line that does not, or the end. *)
Lemma run_of_lines (marker : string) (run rest : list string) (i : Z) :
  Forall (fun b => startswith (strip b) marker = true /\ nonblank b = true)
    run ->
  (forall l rest', rest = l :: rest' ->
     startswith (strip l) marker = false /\ nonblank l = true) ->
  run_lines marker (run ++ rest) = run
  /\ run_end marker i (run ++ rest)
     = match rest with
       | [] => -1
       | _ :: _ => i + Z.of_nat (List.length run)
       end.
Proof.
  intros R Stop; revert i; induction R as [| b run [W N] _ IH]; intros i.
  - cbn [app List.length]; destruct rest as [| l rest']; [split; reflexivity |].
    destruct (Stop l rest' eq_refl) as [W N].
    cbn [run_lines run_end]; destruct (nonblank_strip l N) as (c & r & S).
    rewrite S in *; rewrite W; split; [reflexivity | lia].
  - cbn [app run_lines run_end List.length].
    destruct (nonblank_strip b N) as (c & r & S); rewrite S in *; rewrite W.
    destruct (IH (i + 1)) as [E1 E2]; rewrite E1, E2.
    split; [reflexivity | destruct rest; lia].
Qed.

Lemma renderHeaders_topics (topics : list topic) :
  Forall (fun t => structural_line (heading t) = true) topics ->
  renderHeaders (map topic_item topics) = Ok (flat_map headings topics).
Proof.
  induction 1 as [| [l b subs] topics S _ IH]; [reflexivity |].
  cbn [map]; unfold topic_item at 1; cbn [heading body subtopics].
  rewrite renderHeaders_cons, IH.
  cbn [heading] in S; destruct (structural_line_level l S) as [G _].
  rewrite G; cbn [makeHeader bind flat_map headings app].
  rewrite <- app_assoc; reflexivity.
Qed.

Lemma document_head (level : Z) (t : topic) (topics : list topic) :
  document level (t :: topics) ->
  structural_line (heading t) = true /\ level < depth (heading t).
Proof. intros D; inversion D; subst; auto. Qed.

Lemma document_structural (level : Z) (topics : list topic) :
  document level topics ->
  Forall (fun t => structural_line (heading t) = true) topics.
Proof. induction 1; constructor; assumption. Qed.

Lemma topic_lines_head (t : topic) (topics : list topic)
    (rest : list string) :
  exists rest', flat_map topic_lines (t :: topics) ++ rest
                = heading t :: rest'.
Proof. destruct t as [l b subs]; cbn; eauto. Qed.

Section DocumentLines.

Variable lines : list string.
Hypothesis all_nonblank : Forall (fun l => nonblank l = true) lines.

Lemma nb_line (pre rest : list string) (l : string) :
  lines = pre ++ l :: rest -> nonblank l = true.
Proof.
  intros E; rewrite Forall_forall in all_nonblank.
  apply all_nonblank; rewrite E; apply in_elt.
Qed.

Lemma nb_nextIdx (pre rest : list string) (l : string) :
  lines = pre ++ l :: rest ->
  nextIdx (Z.of_nat (List.length pre)) lines = pos_after (pre ++ [l]) rest.
Proof.
  intros E; unfold nextIdx.
  destruct (Z.of_nat (List.length pre) <? 0) eqn:N;
    [apply Z.ltb_lt in N; lia |].
  replace (Z.to_nat (Z.of_nat (List.length pre) + 1))
    with (List.length (pre ++ [l])) by (rewrite length_app; simpl; lia).
  replace lines with ((pre ++ [l]) ++ rest)
    by (rewrite E, <- app_assoc; reflexivity).
  rewrite skipn_app, skipn_all, Nat.sub_diag; cbn [app skipn].
  destruct rest as [| l' rest']; [reflexivity |].
  cbn [scan pos_after].
  rewrite (nb_line (pre ++ [l]) rest' l'
             ltac:(rewrite E, <- app_assoc; reflexivity)).
  rewrite length_app; simpl; lia.
Qed.

Lemma nb_level_after (pre rest : list string) :
  lines = pre ++ rest -> lines <> [] ->
  exists l, py_index lines (pos_after pre rest) = Ok l
    /\ level_at lines (pos_after pre rest) = Some (depth l)
    /\ forall l' rest', rest = l' :: rest' -> l = l'.
Proof.
  intros E Ne.
  assert (X : exists l, py_index lines (pos_after pre rest) = Ok l
                /\ nonblank l = true
                /\ forall l' rest', rest = l' :: rest' -> l = l').
  { destruct rest as [| l' rest'].
    - cbn [pos_after].
      destruct lines as [| l0 ls] eqn:Ls; [congruence |]; rewrite <- Ls in *.
      destruct (py_index_last lines 0 l0 ltac:(lia)
                  ltac:(rewrite Ls; reflexivity)) as [l Pl].
      exists l; repeat split; [exact Pl | | discriminate].
      rewrite Forall_forall in all_nonblank; apply all_nonblank.
      unfold py_index in Pl.
      destruct (_ && _); [| discriminate].
      destruct (nth_error lines _) eqn:H; [| discriminate].
      injection Pl as <-; exact (nth_error_In _ _ H).
    - exists l'; repeat split.
      + exact (line_split lines pre rest' l' E).
      + exact (nb_line pre rest' l' E).
      + intros l2 rest2 E2; injection E2 as <- _; reflexivity. }
  destruct X as (l & Pl & N & Hd); exists l; repeat split; try assumption.
  unfold level_at; rewrite Pl; apply nonblank_depth, N.
Qed.

Lemma nb_loop_exit (pre post : list string) (level : Z) (st : state)
    (fuel : nat) :
  lines = pre ++ post -> lines <> [] ->
  (forall l post', post = l :: post' -> depth l <= level) ->
  st_idx st = pos_after pre post ->
  st_curlevel st = level_at lines (st_idx st) ->
  sectionLoop (S fuel) lines level st = Ok st.
Proof.
  intros E Ne Post Ix Cl; cbn [sectionLoop].
  destruct (nb_level_after pre post E Ne) as (l & _ & Lv & Hd).
  rewrite Cl, Ix, Lv; cbn [py_gt bind].
  destruct post as [| l' post']; cbn [pos_after].
  - rewrite andb_false_r; reflexivity.
  - rewrite (Hd l' post' eq_refl).
    replace (level <? depth l') with false; [reflexivity |].
    symmetry; apply Z.ltb_ge; exact (Post l' post' eq_refl).
Qed.

(** The body text processor on the body of a topic. *)
Lemma body_run (pre rest : list string) (b : string) (bs : list string) :
  lines = pre ++ (b :: bs) ++ rest ->
  Forall (fun t => startswith (strip t) ":" = true) (b :: bs) ->
  (forall l rest', rest = l :: rest' -> structural_line l = true) ->
  processBodyText (Z.of_nat (List.length pre)) lines
  = Ok (paragraph (b :: bs), pos_after (pre ++ b :: bs) rest).
Proof.
  intros E B Stop; unfold processBodyText.
  assert (H : nth_error lines (Z.to_nat (Z.of_nat (List.length pre)))
              = Some b).
  { rewrite Nat2Z.id, E, nth_error_app2, Nat.sub_diag by lia; reflexivity. }
  rewrite (block_loop_lines ":" _ [""] lines (Z.of_nat (List.length pre)) b
             (Nat2Z.is_nonneg _) H (nb_line pre (bs ++ rest) b E)).
  assert (F : from lines (Z.of_nat (List.length pre)) = (b :: bs) ++ rest).
  { unfold from; rewrite Nat2Z.id, E, skipn_app, skipn_all, Nat.sub_diag.
    reflexivity. }
  rewrite F.
  destruct (run_of_lines ":" (b :: bs) rest (Z.of_nat (List.length pre)))
    as [E1 E2].
  - apply Forall_forall; intros t Hin; rewrite Forall_forall in B.
    split; [apply B, Hin | apply body_line_nonblank, B, Hin].
  - intros l rest' ->; pose proof (Stop l rest' eq_refl) as S.
    split; [apply structural_not_body, S | apply structural_line_nonblank, S].
  - rewrite E1, E2; cbn [bind fst snd]; unfold paragraph, pos_after.
    destruct rest; repeat f_equal; rewrite length_app; lia.
Qed.

End DocumentLines.

Lemma addItem_headings (curline : string) (secout : list string)
    (st : state) :
  addItem curline secout false st
  = mkState (st_out st) (if st_firstItem st then st_isList st else false)
      false false
      ((if st_firstItem st then [] else st_items st) ++ [(curline, secout)])
      (st_curlevel st) (st_idx st).
Proof. unfold addItem; destruct st as [o i [|] m it c x]; reflexivity. Qed.

Section DocumentLoop.

Variable lines : list string.
Hypothesis all_nonblank : Forall (fun l => nonblank l = true) lines.

(** The section below a heading: its body text, then its subtopics as
    headings; it is not collapsible. *)
Lemma section_of_topic (l b : string) (bs : list string)
    (subs : list topic) (pre rest : list string) :
  (subs <> [] -> loop_collects lines (depth l) subs) ->
  document (depth l) subs ->
  Forall (fun t => startswith (strip t) ":" = true) (b :: bs) ->
  depth l < depth b ->
  lines = pre ++ (b :: bs) ++ flat_map topic_lines subs ++ rest ->
  (forall l' rest', rest = l' :: rest' ->
     depth l' <= depth l /\ structural_line l' = true) ->
  exists fuel,
    processSection fuel (Z.of_nat (List.length pre)) lines (depth l)
    = Ok (paragraph (b :: bs) ++ flat_map headings subs,
          pos_after (pre ++ (b :: bs) ++ flat_map topic_lines subs) rest,
          false).
Proof.
  intros IH Dsubs B Db E Post.
  assert (Ne : lines <> [])
    by (rewrite E; intros N; symmetry in N; exact (app_cons_not_nil _ _ _ N)).
  pose proof (line_split lines pre _ b E) as Pb.
  assert (Wb : startswith (strip b) ":" = true) by (inversion B; assumption).
  pose proof (body_line_nonblank b Wb) as Nb.
  destruct (nonblank_depth b Nb) as [Gb _].
  destruct (body_line_strip b Wb) as [r Sb].
  set (rest2 := flat_map topic_lines subs ++ rest) in *.
  assert (Stop2 : forall l' r', rest2 = l' :: r' -> structural_line l' = true).
  { intros l' r' E2; unfold rest2 in E2; destruct subs as [| t subs'].
    - exact (proj2 (Post l' r' E2)).
    - destruct (topic_lines_head t subs' rest) as [r2 F].
      rewrite F in E2; injection E2 as <- _.
      exact (proj1 (document_head _ _ _ Dsubs)). }
  pose proof (body_run lines all_nonblank pre rest2 b bs E B Stop2) as Run.
  assert (E2 : lines = (pre ++ b :: bs) ++ flat_map topic_lines subs ++ rest)
    by (rewrite <- app_assoc; exact E).
  destruct (nb_level_after lines all_nonblank (pre ++ b :: bs) rest2 E2 Ne)
    as (l2 & Pl2 & Lv2 & Hd2).
  set (n2 := pos_after (pre ++ b :: bs) rest2) in *.
  set (stA := mkState ([] ++ paragraph (b :: bs)) false true false []
                (getLevel l2) n2).
  assert (ClA : st_curlevel stA = level_at lines (st_idx stA)).
  { unfold stA, level_at; cbn [st_curlevel st_idx]; rewrite Pl2.
    reflexivity. }
  assert (Loop : exists fuelA stB,
    sectionLoop fuelA lines (depth l) stA = Ok stB
    /\ finalFlush stB = Ok (paragraph (b :: bs) ++ flat_map headings subs)
    /\ st_idx stB
       = pos_after (pre ++ (b :: bs) ++ flat_map topic_lines subs) rest
    /\ st_isList stB = false).
  { destruct subs as [| t subs'].
    - exists 1%nat, stA; split; [| repeat split].
      + apply (nb_loop_exit lines all_nonblank (pre ++ b :: bs) rest2);
          try assumption; [| reflexivity].
        intros l' r' E3; exact (proj1 (Post l' r' E3)).
      + unfold finalFlush, stA; cbn [st_firstItem negb st_out flat_map app].
        rewrite app_nil_r; reflexivity.
      + unfold stA, n2, rest2; cbn [st_idx flat_map app].
        rewrite app_nil_r; reflexivity.
    - destruct (IH ltac:(discriminate) (pre ++ b :: bs) rest stA E2 Post)
        as (fuelA & stB & L & Ho & Hf & Hm & Hi & Hx & Hl); try assumption.
      + unfold stA, n2, rest2; cbn [st_idx].
        destruct (topic_lines_head t subs' rest) as [r2 F].
        rewrite F; reflexivity.
      + exists fuelA, stB; split; [exact L | repeat split].
        * unfold finalFlush; rewrite Hf, Hm, Hi, Ho; cbn [negb].
          unfold stA at 1 2; cbn [st_firstItem st_out app].
          rewrite (renderHeaders_topics _ (document_structural _ _ Dsubs)).
          reflexivity.
        * rewrite Hx, <- app_assoc; reflexivity.
        * apply Hl; reflexivity. }
  destruct Loop as (fuelA & stB & L & Ff & Fx & Fl).
  exists (S (S fuelA)); cbn [processSection]; rewrite Pb; cbn [bind].
  rewrite Gb; cbn [py_gt bind].
  replace (depth l <? depth b) with true by (symmetry; apply Z.ltb_lt, Db).
  replace (0 <=? Z.of_nat (List.length pre)) with true
    by (symmetry; apply Z.leb_le; lia).
  cbn [andb]; cbn [sectionLoop st_curlevel st_idx py_gt bind].
  replace (depth l <? depth b) with true by (symmetry; apply Z.ltb_lt, Db).
  replace (0 <=? Z.of_nat (List.length pre)) with true
    by (symmetry; apply Z.leb_le; lia).
  cbn [andb]; rewrite Pb; cbn [bind]; rewrite Sb.
  cbn [str_at String.get bind].
  unfold dispatch; cbn [Ascii.eqb Bool.eqb].
  unfold contentBranch, flushPending;
    cbn [st_firstItem st_idx st_out st_isList st_makeList st_items
         st_curlevel negb bind].
  rewrite Run; cbn [bind]; fold n2; rewrite Pl2.
  cbn [bind st_out st_isList st_firstItem st_makeList st_items]; fold stA.
  rewrite L; cbn [bind]; rewrite Ff; cbn [bind]; rewrite Fx, Fl.
  reflexivity.
Qed.

Lemma loop_document (level : Z) (topics : list topic) :
  document level topics -> topics <> [] -> loop_collects lines level topics.
Proof.
  induction 1 as [| level l b bs subs sibs Sl D B Db Hsubs IHsubs
                     Hsibs IHsibs Cap];
    [congruence |].
  intros _ pre post st E0 Post Ix Cl.
  set (rest3 := flat_map topic_lines sibs ++ post) in *.
  assert (E : lines = pre ++ l :: (b :: bs) ++ flat_map topic_lines subs
                      ++ rest3).
  { rewrite E0; cbn [flat_map topic_lines app]; rewrite <- !app_assoc.
    reflexivity. }
  clear E0.
  assert (Ne : lines <> [])
    by (rewrite E; intros N; symmetry in N; exact (app_cons_not_nil _ _ _ N)).
  assert (Post3 : forall l' r', rest3 = l' :: r' ->
                    depth l' <= depth l /\ structural_line l' = true).
  { intros l' r' E3; unfold rest3 in E3; destruct sibs as [| t sibs'].
    - destruct (Post l' r' E3); split; [lia | assumption].
    - destruct (topic_lines_head t sibs' post) as [r2 F].
      rewrite F in E3; injection E3 as <- _; split.
      + exact (Cap t sibs' eq_refl).
      + exact (proj1 (document_head _ _ _ Hsibs)). }
  assert (E1 : lines = (pre ++ [l]) ++ (b :: bs)
                       ++ flat_map topic_lines subs ++ rest3)
    by (rewrite <- app_assoc; exact E).
  destruct (section_of_topic l b bs subs (pre ++ [l]) rest3 IHsubs Hsubs B Db
              E1 Post3) as [fuel1 Child].
  set (content := paragraph (b :: bs) ++ flat_map headings subs) in *.
  set (pre3 := pre ++ l :: (b :: bs) ++ flat_map topic_lines subs).
  assert (E3 : lines = pre3 ++ rest3).
  { unfold pre3; rewrite <- app_assoc; cbn [app]; rewrite <- app_assoc.
    exact E. }
  assert (P3 : (pre ++ [l]) ++ (b :: bs) ++ flat_map topic_lines subs = pre3)
    by (unfold pre3; rewrite <- app_assoc; reflexivity).
  rewrite P3 in Child.
  destruct (nb_level_after lines all_nonblank pre3 rest3 E3 Ne)
    as (l3 & Pl3 & Lv3 & _).
  set (n3 := pos_after pre3 rest3) in *.
  set (st2 := mkState (st_out st)
                (if st_firstItem st then st_isList st else false) false false
                ((if st_firstItem st then [] else st_items st)
                 ++ [(l, content)])
                (getLevel l3) n3).
  assert (Cl2 : st_curlevel st2 = level_at lines (st_idx st2)).
  { unfold st2, level_at; cbn [st_curlevel st_idx]; rewrite Pl3.
    reflexivity. }
  assert (P : pre ++ flat_map topic_lines (Topic l (b :: bs) subs :: sibs)
              = pre3 ++ flat_map topic_lines sibs).
  { unfold pre3; cbn [flat_map topic_lines]; rewrite <- !app_assoc.
    cbn [app]; rewrite <- !app_assoc; reflexivity. }
  assert (Rest : exists fuel2 st',
    sectionLoop fuel2 lines level st2 = Ok st'
    /\ st_out st' = st_out st
    /\ st_firstItem st' = false /\ st_makeList st' = false
    /\ st_items st' = (if st_firstItem st then [] else st_items st)
                      ++ map topic_item (Topic l (b :: bs) subs :: sibs)
    /\ st_idx st'
       = pos_after
           (pre ++ flat_map topic_lines (Topic l (b :: bs) subs :: sibs)) post
    /\ (st_isList st = false -> st_isList st' = false)).
  { rewrite P; destruct sibs as [| t sibs'].
    - exists 1%nat, st2; split; [| repeat split].
      + apply (nb_loop_exit lines all_nonblank pre3 post); try assumption.
        * intros l' r' E4; exact (proj1 (Post l' r' E4)).
        * reflexivity.
      + cbn [flat_map]; rewrite app_nil_r; reflexivity.
      + unfold st2; cbn [st_isList]; intros ->; destruct (st_firstItem st);
          reflexivity.
    - destruct (IHsibs ltac:(discriminate) pre3 post st2 E3 Post)
        as (fuel2 & st' & L & Ho & Hf & Hm & Hi & Hx & Hl); try assumption.
      + unfold st2, n3, rest3; cbn [st_idx].
        destruct (topic_lines_head t sibs' post) as [r2 F].
        rewrite F; reflexivity.
      + exists fuel2, st'; split; [exact L | repeat split]; try assumption.
        * rewrite Hi; unfold st2; cbn [st_firstItem st_items map].
          rewrite <- app_assoc; reflexivity.
        * intros I; apply Hl; unfold st2; cbn [st_isList]; rewrite I.
          destruct (st_firstItem st); reflexivity. }
  destruct Rest as (fuel2 & st' & Rest & Fields).
  exists (S (Nat.max fuel1 fuel2)), st'; split; [| exact Fields].
  cbn [sectionLoop].
  pose proof (line_split lines pre _ l E) as Pl.
  destruct (structural_line_level l Sl) as [Gl _].
  destruct (structural_line_strip l Sl) as (c & r & Sc & Ic).
  rewrite Cl, Ix; unfold level_at; rewrite Pl, Gl; cbn [py_gt bind].
  replace (level <? depth l) with true by (symmetry; apply Z.ltb_lt, D).
  replace (0 <=? Z.of_nat (List.length pre)) with true
    by (symmetry; apply Z.leb_le; lia).
  cbn [andb]; rewrite Sc; cbn [str_at String.get bind].
  rewrite (is_structural_dispatch _ lines st l c (depth l) Ic)
    by (rewrite Cl, Ix; unfold level_at; rewrite Pl; exact Gl).
  rewrite Ix, (nb_nextIdx lines all_nonblank pre _ l E).
  replace (pos_after (pre ++ [l])
             ((b :: bs) ++ flat_map topic_lines subs ++ rest3))
    with (Z.of_nat (List.length (pre ++ [l]))) by reflexivity.
  rewrite (processSection_more lines fuel1 _ _ _ _ Child)
    by apply Nat.le_max_l.
  cbn [bind fst snd]; rewrite Pl3; cbn [bind].
  rewrite addItem_headings.
  cbn [st_out st_isList st_firstItem st_makeList st_items]; fold st2.
  apply (sectionLoop_more lines fuel2); [exact Rest | apply Nat.le_max_r].
Qed.

End DocumentLoop.

Lemma document_nonblank (level : Z) (topics : list topic) :
  document level topics ->
  Forall (fun l => nonblank l = true) (flat_map topic_lines topics).
Proof.
  induction 1 as [| level l b bs subs sibs Sl D B Db Hsubs IHsubs
                     Hsibs IHsibs Cap];
    [constructor |].
  cbn [flat_map topic_lines]; apply Forall_app; split; [| exact IHsibs].
  constructor; [exact (structural_line_nonblank l Sl) |].
  apply Forall_app; split; [| exact IHsubs].
  apply Forall_forall; intros t Hin; rewrite Forall_forall in B.
  apply body_line_nonblank, B, Hin.
Qed.

(** From the loop to the call: a section that consists of topics is
    rendered as their headings. *)
Lemma section_of_topics (lines : list string) (level : Z) (t : topic)
    (topics : list topic) (pre post : list string) :
  Forall (fun l => nonblank l = true) lines ->
  document level (t :: topics) ->
  lines = pre ++ flat_map topic_lines (t :: topics) ++ post ->
  (forall l post', post = l :: post' ->
     depth l <= level /\ structural_line l = true) ->
  exists fuel fl,
    processSection fuel (Z.of_nat (List.length pre)) lines level
    = Ok (flat_map headings (t :: topics),
          pos_after (pre ++ flat_map topic_lines (t :: topics)) post, fl).
Proof.
  intros Nb D E Post.
  destruct (topic_lines_head t topics post) as [rest F].
  destruct (document_head _ _ _ D) as [Sl Dl].
  assert (Pl : py_index lines (Z.of_nat (List.length pre)) = Ok (heading t))
    by (apply (line_split lines pre rest); rewrite E, F; reflexivity).
  destruct (structural_line_level _ Sl) as [Gl _].
  set (init := mkState [] true true false [] (getLevel (heading t))
                 (Z.of_nat (List.length pre))).
  destruct (loop_document lines Nb level _ D ltac:(discriminate) pre post
              init E Post eq_refl)
    as (fuel & st' & L & Ho & Hf & Hm & Hi & Hx & _).
  { unfold init, level_at; cbn [st_curlevel st_idx]; rewrite Pl; reflexivity. }
  exists (S fuel), (st_isList st'); cbn [processSection]; rewrite Pl.
  cbn [bind]; rewrite Gl; cbn [py_gt bind].
  replace (level <? depth (heading t)) with true
    by (symmetry; apply Z.ltb_lt, Dl).
  replace (0 <=? Z.of_nat (List.length pre)) with true
    by (symmetry; apply Z.leb_le; lia).
  cbn [andb]; rewrite <- Gl; fold init; rewrite L; cbn [bind].
  unfold finalFlush; rewrite Hf, Hm, Hi, Ho, Hx; cbn [negb].
  unfold init; cbn [st_firstItem st_out app].
  rewrite (renderHeaders_topics _ (document_structural _ _ D)).
  reflexivity.
Qed.

(** X14: documents in which every heading has its body text.  A topic is
    a heading line (a line without marker), directly below it one or more
    body text lines (marker [:]) of which the first is deeper than the
    heading, and then its subtopics, which are deeper than the heading; a
    topic that follows another one in the same list is not deeper than it.
    The converter renders such an input as headings only: for every topic
    the stripped heading behind [depth + 1] characters [#], the body text
    without marker between two empty lines, and then the subtopics in the
    same way. *)
Theorem topics_rendered_as_headings (topics : list topic) :
  topics <> [] -> document (-1) topics ->
  main (flat_map topic_lines topics) = Ok (flat_map headings topics).
Proof.
  intros Ne D; destruct topics as [| t topics]; [congruence |].
  set (lines := flat_map topic_lines (t :: topics)).
  destruct (section_of_topics lines (-1) t topics [] []
              (document_nonblank _ _ D) D)
    as (fuel & fl & E);
    [unfold lines; rewrite app_nil_r; reflexivity | discriminate |].
  unfold main; rewrite (fuel_any lines fuel 0 (-1) _ E); reflexivity.
Qed.

Lemma topics_rendered_as_headings_witness :
  let topics :=
    [Topic (ln 0 "A") [ln 1 ":text"; ln 0 ": more"]
       [Topic (ln 1 "B") [ln 2 ":below"] []];
     Topic (ln 0 "C") [ln 1 ": last"] []] in
  flat_map topic_lines topics
  = [ln 0 "A"; ln 1 ":text"; ln 0 ": more"; ln 1 "B"; ln 2 ":below";
     ln 0 "C"; ln 1 ": last"]
  /\ main (flat_map topic_lines topics)
     = Ok ["#A"; ""; "text"; "more"; ""; "##B"; ""; "below"; "";
           "#C"; ""; "last"; ""].
Proof.
  intros topics; split; [reflexivity |].
  apply (topics_rendered_as_headings topics); [discriminate |].
  assert (B : forall ls, forallb (fun t => startswith (strip t) ":") ls = true
                -> Forall (fun t => startswith (strip t) ":" = true) ls).
  { intros ls H; apply Forall_forall; exact (proj1 (forallb_forall _ _) H). }
  unfold topics.
  apply document_cons;
    [reflexivity | reflexivity | apply B; reflexivity | reflexivity | | |].
  - apply document_cons;
      [reflexivity | reflexivity | apply B; reflexivity | reflexivity
       | apply document_nil | apply document_nil | intros; discriminate].
  - apply document_cons;
      [reflexivity | reflexivity | apply B; reflexivity | reflexivity
       | apply document_nil | apply document_nil | intros; discriminate].
  - intros t sibs' E; injection E as <- _; vm_compute; discriminate.
Defined.
